(** * timeserver: session cookies, the people registry and the request handlers

    A shallow embedding of [server.go] (v1.0.8) and of the earlier
    stand-alone time server (v1.0.1), together with the properties of the
    session-identity subsystem.

    Layout:
    - [regexp]   : the fragment of Go's regular expressions used by the
                   login handler, with an executable matcher;
    - [people]   : the registry package the server imports;
    - [http]     : requests, cookies and the response writer;
    - the handlers of [server.go], its router and both [main] functions;
    - [path], [cookie] : paths in canonical form, cookies as they are written;
    - the properties. *)

From Stdlib Require Import Ascii String ZArith Lia.
From stdpp Require Import base tactics option list strings gmap.

Local Open Scope string_scope.
Local Open Scope list_scope.

(** ** Regular expressions *)

Module regexp.

(** Syntax of the fragment: character classes given by byte ranges,
    concatenation, alternation and bounded repetition [r{lo,hi}].  [Void]
    (no match) only shows up in derivatives. *)
Inductive Regexp : Type :=
| Eps
| Void
| Class (ranges : list (ascii * ascii))
| Cat (r1 r2 : Regexp)
| Alt (r1 r2 : Regexp)
| Rep (r : Regexp) (lo hi : nat).

Definition in_range (c : ascii) (rg : ascii * ascii) : bool :=
  ((nat_of_ascii (fst rg) <=? nat_of_ascii c) && (nat_of_ascii c <=? nat_of_ascii (snd rg)))%nat.

Definition in_class (ranges : list (ascii * ascii)) (c : ascii) : bool :=
  existsb (in_range c) ranges.

(** The texts matched by an expression. *)
Inductive matches : Regexp -> list ascii -> Prop :=
| MEps : matches Eps []
| MClass ranges c : in_class ranges c = true -> matches (Class ranges) [c]
| MCat r1 r2 s1 s2 : matches r1 s1 -> matches r2 s2 -> matches (Cat r1 r2) (s1 ++ s2)
| MAltL r1 r2 s : matches r1 s -> matches (Alt r1 r2) s
| MAltR r1 r2 s : matches r2 s -> matches (Alt r1 r2) s
| MRepO r hi : matches (Rep r 0 hi) []
| MRepS r lo hi s1 s2 :
    matches r s1 -> matches (Rep r (pred lo) hi) s2 -> matches (Rep r lo (S hi)) (s1 ++ s2).

(** Matching by derivatives. *)
Fixpoint nullable (r : Regexp) : bool :=
  match r with
  | Eps => true
  | Void => false
  | Class _ => false
  | Cat r1 r2 => nullable r1 && nullable r2
  | Alt r1 r2 => nullable r1 || nullable r2
  | Rep r lo hi => (lo =? 0)%nat || (nullable r && (lo <=? hi)%nat)
  end.

Fixpoint deriv (c : ascii) (r : Regexp) : Regexp :=
  match r with
  | Eps => Void
  | Void => Void
  | Class ranges => if in_class ranges c then Eps else Void
  | Cat r1 r2 =>
      if nullable r1 then Alt (Cat (deriv c r1) r2) (deriv c r2)
      else Cat (deriv c r1) r2
  | Alt r1 r2 => Alt (deriv c r1) (deriv c r2)
  | Rep r lo hi =>
      match hi with
      | 0 => Void
      | S hi' => Cat (deriv c r) (Rep r (pred lo) hi')
      end
  end.

Fixpoint matchb (r : Regexp) (s : list ascii) : bool :=
  match s with
  | [] => nullable r
  | c :: s' => matchb (deriv c r) s'
  end.

(** [regexp.MatchString] for a pattern of the form [^r$]: the two anchors
    make the unanchored search succeed exactly when the whole text matches
    [r].  Go matches UTF-8 runes; every class of the fragment is a range of
    ASCII bytes, so a text with a byte above 127 matches neither here nor
    there and matching byte by byte is the same. *)
Definition MatchString (r : Regexp) (s : string) : bool :=
  matchb r (list_ascii_of_string s).

End regexp.

(** ** Template data

    The values the handlers hand to the templates as [interface{}]: [nil],
    a string, or a [map[string]interface{}] of named strings. *)
Inductive any : Type :=
| Nil
| Str (s : string)
| Params (m : gmap string string).

(** ** The people package *)

Module people.

(** Modelled from the spec: the [Person] record of the people package,
    whose source is not part of the sources at hand: an opaque identifier,
    generated at creation, and a display name. *)
Record Person : Type := { ID : string; Name : string }.

(** Modelled from the spec: [people.NewUsers], the registry (a mapping from
    identifier to Person), built once at process start and empty
    initially. *)
Definition NewUsers : gmap string Person := ∅.

(** Modelled from the spec: [people.NewPerson], a new Person with a freshly
    generated identifier and the submitted name.  The generation mechanism
    is left open; [uuid] is the identifier the generator yields for this
    call. *)
Definition NewPerson (uuid : string) (name : string) : Person :=
  {| ID := uuid; Name := name |}.

(** Modelled from the spec: [Users.Add], which inserts a Person keyed by
    its identifier; the registry itself performs no uniqueness check. *)
Definition Add (users : gmap string Person) (p : Person) : gmap string Person :=
  <[ID p := p]> users.

(** Modelled from the spec: [Users.Name] (the spec's [NameOf]), the name of
    the Person with that identifier, or the empty string if there is
    none; it never fails. *)
Definition NameOf (users : gmap string Person) (id : string) : string :=
  match users !! id with
  | Some p => Name p
  | None => ""
  end.

End people.

(** ** The clock *)

Module time.

(** A reading of the local wall clock. *)
Record Time : Type := { hour : nat; minute : nat; second : nat }.

Definition digit (n : nat) : ascii := ascii_of_nat (48 + n mod 10).

Definition two_digits (n : nat) : string :=
  String (digit (n / 10)) (String (digit n) "").

Definition hour12 (h : nat) : nat :=
  if (h mod 12 =? 0)%nat then 12 else h mod 12.

(** [t.Format("3:04:05 PM")]: twelve-hour clock without padding, minutes
    and seconds on two digits, then the half of the day. *)
Definition Format (t : Time) : string :=
  (if (hour12 (hour t) <? 10)%nat then String (digit (hour12 (hour t))) ""
   else two_digits (hour12 (hour t)))
  +:+ ":" +:+ two_digits (minute t)
  +:+ ":" +:+ two_digits (second t)
  +:+ " " +:+ (if (hour t mod 24 <? 12)%nat then "AM" else "PM").

End time.

(** ** Requests, cookies and the response writer *)

Module http.

Definition StatusOK : nat := 200.
Definition StatusFound : nat := 302.
Definition StatusBadRequest : nat := 400.
Definition StatusNotFound : nat := 404.
Definition StatusInternalServerError : nat := 500.

(** The fields of [http.Cookie] the server uses.  [MaxAge] is the field of
    the struct: positive is a lifetime in seconds, negative means delete
    the cookie now. *)
Record Cookie : Type := { Name : string; Value : string; Path : string; MaxAge : Z }.

Record Request : Type := {
  Method : string;
  URL : string;                  (* the path of the request *)
  Cookies : list Cookie;         (* cookies sent with the request, in order *)
  Form : list (string * string)  (* parsed form, body fields before query fields *)
}.

Inductive error : Type := ErrNoCookie.

(** [r.Cookie(name)]: the first cookie of that name, or [ErrNoCookie]. *)
Definition Request_Cookie (r : Request) (name : string) : Cookie + error :=
  match find (fun c => String.eqb (Name c) name) (Cookies r) with
  | Some c => inl c
  | None => inr ErrNoCookie
  end.

(** [r.FormValue(key)]: the first value of the field, or the empty string. *)
Definition FormValue (r : Request) (key : string) : string :=
  match find (fun kv => String.eqb (fst kv) key) (Form r) with
  | Some kv => snd kv
  | None => ""
  end.

(** What a handler can write to the body.  The bytes a template produces
    are the renderer's business; a [Rendered] chunk stands for the output of
    executing the named template on the data. *)
Inductive Chunk : Type :=
| Rendered (templ : string) (data : any)
| RedirectNote (url : string) (code : nat)   (* the short hyperlink [http.Redirect] adds *)
| ErrorText (msg : string).                  (* the line [http.Error] writes *)

(** The response headers the server touches. *)
Record Header : Type := { Location : option string; SetCookie : list Cookie }.

(** [http.ResponseWriter]: the header map the handler edits, and what has
    gone out: once the status line is written, the headers sent with it are
    fixed and later edits of the map are not seen by the client. *)
Record ResponseWriter : Type := {
  header : Header;
  wroteHeader : bool;
  status : nat;
  sent : Header;
  body : list Chunk
}.

Definition emptyHeader : Header := {| Location := None; SetCookie := [] |}.

Definition newResponseWriter : ResponseWriter :=
  {| header := emptyHeader; wroteHeader := false; status := 0;
     sent := emptyHeader; body := [] |}.

(** [w.WriteHeader(code)]; a second call is ignored. *)
Definition WriteHeader (code : nat) (w : ResponseWriter) : ResponseWriter :=
  if wroteHeader w then w
  else {| header := header w; wroteHeader := true; status := code;
          sent := header w; body := body w |}.

(** [w.Write]; the first write sends status 200 if none was sent. *)
Definition Write (c : Chunk) (w : ResponseWriter) : ResponseWriter :=
  let w' := WriteHeader StatusOK w in
  {| header := header w'; wroteHeader := wroteHeader w'; status := status w';
     sent := sent w'; body := body w' ++ [c] |}.

(** [http.SetCookie(w, &c)] adds a Set-Cookie header (the cookie name used
    by the server is a valid token, so the cookie is never dropped).  The
    header is kept as the struct handed over; the line that goes out for it
    is [cookie.String] further down, which writes a negative [MaxAge] as
    Max-Age=0 and leaves out of the value the bytes a value may not carry. *)
Definition SetCookie_ (c : Cookie) (w : ResponseWriter) : ResponseWriter :=
  {| header := {| Location := Location (header w);
                  SetCookie := SetCookie (header w) ++ [c] |};
     wroteHeader := wroteHeader w; status := status w;
     sent := sent w; body := body w |}.

(** [http.Redirect(w, r, url, code)] for a rooted [url]: Location header,
    status, and for a GET request a short note with the hyperlink. *)
Definition Redirect (r : Request) (url : string) (code : nat)
    (w : ResponseWriter) : ResponseWriter :=
  let w1 := {| header := {| Location := Some url; SetCookie := SetCookie (header w) |};
               wroteHeader := wroteHeader w; status := status w;
               sent := sent w; body := body w |} in
  let w2 := WriteHeader code w1 in
  if String.eqb (Method r) "GET" then Write (RedirectNote url code) w2 else w2.

(** [http.Error(w, msg, code)]. *)
Definition Error (msg : string) (code : nat) (w : ResponseWriter) : ResponseWriter :=
  Write (ErrorText msg) (WriteHeader code w).

(** What goes out once the handler has returned: a handler that wrote
    nothing yields an empty 200.  The record keeps what the handler wrote;
    that the transport leaves the body out when answering a HEAD request is
    not modelled. *)
Record Response : Type := { StatusCode : nat; Headers : Header; Body : list Chunk }.

Definition finishRequest (w : ResponseWriter) : Response :=
  let w' := WriteHeader StatusOK w in
  {| StatusCode := status w'; Headers := sent w'; Body := body w' |}.

(** The views rendered into a response. *)
Definition views (resp : Response) : list (string * any) :=
  omap (fun c => match c with Rendered t d => Some (t, d) | _ => None end) (Body resp).

End http.

(** ** server.go *)

Definition VERSION_NUMBER : string := "v1.0.8".
Definition COOKIE_NAME : string := "uuid".
Definition COOKIE_MAX_AGE : Z := 86400.

(** The pattern of [handleLogin],
    [^[a-zA-Z]{2,35} {0,1}[a-zA-Z]{0,35}$], between its anchors. *)
Definition letter : regexp.Regexp := regexp.Class [("a", "z"); ("A", "Z")]%char.
Definition space : regexp.Regexp := regexp.Class [(" ", " ")]%char.
Definition name_pattern : regexp.Regexp :=
  regexp.Cat (regexp.Rep letter 2 35)
    (regexp.Cat (regexp.Rep space 0 1) (regexp.Rep letter 0 35)).

(** Package-level state: the parsed template set, the registry, and what
    the logger has put out. *)
Inductive Level : Type := InfoLevel | FatalLevel.

Record Globals : Type := {
  templates : gset string;
  users : gmap string people.Person;
  logged : list (Level * string)
}.

(** What a request gets from outside the program: the clock reading and the
    identifier the generator yields if asked. *)
Record Env : Type := { now : time.Time; uuid : string }.

(** Handler code runs on the globals and the response writer, and either
    returns or ends the process ([os.Exit]). *)
Record St : Type := { glob : Globals; rw : http.ResponseWriter }.

Inductive Result (A : Type) : Type :=
| Ret (a : A) (s : St)
| Exit (code : Z) (s : St).
Arguments Ret {A} a s.
Arguments Exit {A} code s.

Definition M (A : Type) : Type := St -> Result A.

Definition ret {A} (a : A) : M A := fun s => Ret a s.

Definition bind {A B} (m : M A) (k : A -> M B) : M B :=
  fun s => match m s with
           | Ret a s' => k a s'
           | Exit code s' => Exit code s'
           end.

Notation "'let!' x ':=' m 'in' k" := (bind m (fun x => k))
  (at level 10, x name, m at level 100, k at level 200).
Notation "m '>>' k" := (bind m (fun _ => k))
  (at level 100, k at level 200, right associativity).

(** Effects on the response writer. *)
Definition on_writer (f : http.ResponseWriter -> http.ResponseWriter) : M unit :=
  fun s => Ret tt {| glob := glob s; rw := f (rw s) |}.

Definition get_users : M (gmap string people.Person) :=
  fun s => Ret (users (glob s)) s.

Definition with_users (g : Globals) (u : gmap string people.Person) : Globals :=
  {| templates := templates g; users := u; logged := logged g |}.

Definition put_users (u : gmap string people.Person) : M unit :=
  fun s => Ret tt {| glob := with_users (glob s) u; rw := rw s |}.

Definition logging (g : Globals) (entries : list (Level * string)) : Globals :=
  {| templates := templates g; users := users g; logged := logged g ++ entries |}.

Definition emit (l : Level) (msg : string) : M unit :=
  fun s => Ret tt {| glob := logging (glob s) [(l, msg)]; rw := rw s |}.

Definition os_Exit {A} (code : Z) : M A := fun s => Exit code s.

(** The logger runs at [InfoLevel] ([main] sets it, and it is the logger's
    default): debug entries are dropped, [log.Fatal] writes its entry and
    exits with status 1. *)
Definition log_Debug (msg : string) : M unit := ret tt.
Definition log_Info (msg : string) : M unit := emit InfoLevel msg.
Definition log_Fatal (msg : string) : M unit := emit FatalLevel msg >> os_Exit 1.

(** [info] and [debug]: of an entry the log keeps the level and the message;
    the fields the source attaches to it (the Cookie header, the remote
    address, the method, [time.Now()] and the URL of the request) are not
    kept, so nothing is said here about that part of the log. *)
Definition info (msg : string) (r : http.Request) : M unit := log_Info msg.

Definition debug (msg : string) (r : http.Request) : M unit := log_Debug msg.

(** [templates.ExecuteTemplate(w, name, d)]: writes the output of the named
    template, or fails, before anything is written, if the set has no
    template of that name (the message is the library's, without the quotes
    it puts around the name).  A template that is in the set is taken to
    execute on the data it is given: a failure while executing or writing,
    on which the library errs as well, is not modelled, and no statement
    below rules such a failure out. *)
Definition ExecuteTemplate (name : string) (d : any) : M (option string) :=
  fun s =>
    if decide (name ∈ templates (glob s))
    then Ret None {| glob := glob s; rw := http.Write (http.Rendered name d) (rw s) |}
    else Ret (Some ("html/template: " +:+ name +:+ " is undefined")) s.

Definition renderTemplate (templ : string) (d : any) : M unit :=
  let! err := ExecuteTemplate (templ +:+ ".html") d in
  match err with
  | Some e =>
      log_Fatal ("Error looking for template: " +:+ templ) >>
      on_writer (http.Error e http.StatusInternalServerError)
  | None => ret tt
  end.

Definition setCookie (uuid : string) (maxAge : Z) : M unit :=
  let c := {| http.Name := COOKIE_NAME; http.Value := uuid;
              http.Path := "/"; http.MaxAge := maxAge |} in
  on_writer (http.SetCookie_ c).

Definition idFromUUIDCookie (r : http.Request) : M (string * option http.error) :=
  log_Debug "Reading cookie 'uuid'." >>
  match http.Request_Cookie r COOKIE_NAME with
  | inr http.ErrNoCookie =>
      log_Debug "Cookie not found." >>
      ret ("", Some http.ErrNoCookie)
  | inl cookie => ret (http.Value cookie, None)
  end.

Definition handleDefault (e : Env) (r : http.Request) : M unit :=
  info "Default handler called." r >>
  let! id_ := idFromUUIDCookie r in
  let id := fst id_ in
  let! u := get_users in
  let name := people.NameOf u id in
  if negb (String.eqb name "") then
    log_Debug ("User: " +:+ name +:+ " viewing site.") >>
    renderTemplate "greetings" (Str name)
  else
    log_Debug "No cookie found or value empty. Redirecting to login." >>
    on_writer (http.Redirect r "/login" http.StatusFound).

Definition handleLogin (e : Env) (r : http.Request) : M unit :=
  info "Login handler called." r >>
  if String.eqb (http.Method r) "GET" then
    log_Debug "Login GET method detected." >>
    renderTemplate "login" Nil
  else if String.eqb (http.Method r) "POST" then
    log_Debug "Login POST method detected." >>
    let name := http.FormValue r "name" in
    if regexp.MatchString name_pattern name then
      log_Debug "Name matched regex." >>
      let person := people.NewPerson (uuid e) name in
      (let! u := get_users in put_users (people.Add u person)) >>
      setCookie (people.ID person) COOKIE_MAX_AGE >>
      on_writer (http.Redirect r "/" http.StatusFound) >>
      log_Debug ("User: " +:+ people.Name person +:+ " logged in.")
    else
      log_Debug "Invalid username. Rendering login page." >>
      on_writer (http.WriteHeader http.StatusBadRequest) >>
      renderTemplate "login" (Str "C'mon, I need a name.")
  else
    log_Debug "Login request method not handled.".

Definition handleLogout (e : Env) (r : http.Request) : M unit :=
  info "Logout handler called." r >>
  setCookie "deleted" (-1) >>
  renderTemplate "logged-out" Nil.

Definition handleNotFound (e : Env) (r : http.Request) : M unit :=
  info "Not found handler called." r >>
  on_writer (http.WriteHeader http.StatusNotFound) >>
  renderTemplate "404" Nil.

Definition handleTime (e : Env) (r : http.Request) : M unit :=
  info "Time handler called." r >>
  let! id_ := idFromUUIDCookie r in
  let id := fst id_ in
  let! u := get_users in
  let params := Params (<["time" := time.Format (now e)]>
                          (<["name" := people.NameOf u id]> ∅)) in
  renderTemplate "time" params.

(** The routes [main] registers: exact paths, whatever the method; anything
    else goes to the not-found handler.  This is the dispatch of a request
    whose path is in canonical form ([dispatched], further down); a request
    whose path is not never gets here, it is answered 301 by the mux. *)
Definition router (e : Env) (r : http.Request) : M unit :=
  if String.eqb (http.URL r) "/" then handleDefault e r
  else if String.eqb (http.URL r) "/index.html" then handleDefault e r
  else if String.eqb (http.URL r) "/login" then handleLogin e r
  else if String.eqb (http.URL r) "/logout" then handleLogout e r
  else if String.eqb (http.URL r) "/time" then handleTime e r
  else handleNotFound e r.

(** Serving one request: the router runs on a new response writer; if it
    returns, the response goes out, and if the process ends under it,
    nothing does. *)
Definition Event : Type := Env * http.Request.

Inductive Outcome : Type :=
| Responded (g : Globals) (resp : http.Response)
| Terminated (code : Z) (g : Globals).

Definition serve (g : Globals) (ev : Event) : Outcome :=
  match router (fst ev) (snd ev) {| glob := g; rw := http.newResponseWriter |} with
  | Ret _ s => Responded (glob s) (http.finishRequest (rw s))
  | Exit code s => Terminated code (glob s)
  end.

Definition response_of (o : Outcome) : option http.Response :=
  match o with
  | Responded _ resp => Some resp
  | Terminated _ _ => None
  end.

Definition globals_of (o : Outcome) : Globals :=
  match o with
  | Responded g _ => g
  | Terminated _ g => g
  end.

Definition registry_of (o : Outcome) : gmap string people.Person := users (globals_of o).

(** The life of the process over a sequence of requests, handled one after
    the other: the responses sent, and the state it ends in. *)
Inductive Life : Type :=
| Running (g : Globals)
| Halted (code : Z) (g : Globals).

Definition registry (l : Life) : gmap string people.Person :=
  match l with
  | Running g => users g
  | Halted _ g => users g
  end.

Definition step (l : Life) (ev : Event) : Life :=
  match l with
  | Running g =>
      match serve g ev with
      | Responded g' _ => Running g'
      | Terminated code g' => Halted code g'
      end
  | Halted code g => Halted code g
  end.

Definition run (l : Life) (evs : list Event) : Life := fold_left step evs l.

Fixpoint responses (g : Globals) (evs : list Event) : list http.Response :=
  match evs with
  | [] => []
  | ev :: evs' =>
      match serve g ev with
      | Responded g' resp => resp :: responses g' evs'
      | Terminated _ _ => []
      end
  end.

(** The process right after start-up, given the templates found on disk. *)
Definition startup (ts : gset string) : Globals :=
  {| templates := ts; users := people.NewUsers; logged := [] |}.

(** A login submit that passes validation: the one kind of request that
    asks the generator for an identifier. *)
Definition login_submit (r : http.Request) : bool :=
  String.eqb (http.URL r) "/login" && String.eqb (http.Method r) "POST"
  && regexp.MatchString name_pattern (http.FormValue r "name").

(** ** The name grammar in the words of the specification

    One run of 2 to 35 letters, optionally followed by a single space and a
    second run of 0 to 35 letters. *)
Definition is_alpha (c : ascii) : bool :=
  regexp.in_class [("a", "z"); ("A", "Z")]%char c.

Fixpoint leading_run (s : list ascii) : list ascii * list ascii :=
  match s with
  | c :: s' =>
      if is_alpha c then let p := leading_run s' in (c :: fst p, snd p)
      else ([], s)
  | [] => ([], [])
  end.

Definition name_grammar (s : string) : bool :=
  let '(w1, rest) := leading_run (list_ascii_of_string s) in
  (2 <=? length w1)%nat && (length w1 <=? 35)%nat &&
  match rest with
  | [] => true
  | c :: w2 => Ascii.eqb c " " && forallb is_alpha w2 && (length w2 <=? 35)%nat
  end.

(** ** The command line

    The two flag variables of [main], and [flag.Parse] on the arguments
    after the program name: [-name], [--name], [-name=value] and, for the
    string flag, [-name value]; parsing stops at the first argument that is
    not a flag or after [--].  [None] is a command line the package
    rejects. *)
Record Flags : Type := { port : string; V : bool }.

Definition ParseBool (s : string) : option bool :=
  if bool_decide (s ∈ ["1"; "t"; "T"; "TRUE"; "true"; "True"]) then Some true
  else if bool_decide (s ∈ ["0"; "f"; "F"; "FALSE"; "false"; "False"]) then Some false
  else None.

Fixpoint split_value (s : string) : string * option string :=
  match s with
  | EmptyString => (EmptyString, None)
  | String c s' =>
      if Ascii.eqb c "=" then (EmptyString, Some s')
      else let p := split_value s' in (String c (fst p), snd p)
  end.

Definition flag_name (s : string) : option string :=
  match s with
  | String "-" (String "-" n) => Some n
  | String "-" n => Some n
  | _ => None
  end.

Definition bad_syntax (n : string) : bool :=
  match n with
  | EmptyString => true
  | String c _ => Ascii.eqb c "-" || Ascii.eqb c "="
  end.

Fixpoint Parse (args : list string) (fs : Flags) : option Flags :=
  match args with
  | [] => Some fs
  | s :: rest =>
      if (String.length s <? 2)%nat || String.eqb s "--" then Some fs
      else match flag_name s with
      | None => Some fs
      | Some n =>
          if bad_syntax n then None
          else
            let name := fst (split_value n) in
            let value := snd (split_value n) in
            if String.eqb name "V" then
              match value with
              | Some v =>
                  match ParseBool v with
                  | Some b => Parse rest {| port := port fs; V := b |}
                  | None => None
                  end
              | None => Parse rest {| port := port fs; V := true |}
              end
            else if String.eqb name "port" then
              match value with
              | Some v => Parse rest {| port := v; V := V fs |}
              | None =>
                  match rest with
                  | v :: rest' => Parse rest' {| port := v; V := V fs |}
                  | [] => None
                  end
              end
            else None
      end
  end.

(** How a start of the program ends up. *)
Inductive Started : Type :=
| Usage                                 (* the flag package rejected the command line *)
| Exited (code : Z) (stdout : string)
| Serving (addr : string).              (* [http.ListenAndServe(addr, nil)] serves the router *)

Definition newline : string := String (ascii_of_nat 10) "".

(** [main] of [server.go].  [listen] says whether an address can be bound. *)
Definition main (listen : string -> bool) (args : list string) : Started :=
  let declared := {| port := "8080"; V := false |} in
  match Parse args declared with
  | None => Usage
  | Some parsed =>
      let portParam := ":" +:+ port parsed in
      if V parsed then Exited 1 ("Version number: " +:+ VERSION_NUMBER +:+ " " +:+ newline)
      else if listen portParam then Serving portParam
      else Exited 1 ""
  end.

(** The earlier time server (v1.0.1): its [main] reads [*portPtr] before
    [flag.Parse] has run, and ignores the result of [ListenAndServe]. *)
Module v101.

Definition VERSION_NUMBER : string := "v1.0.1".

Definition main (listen : string -> bool) (args : list string) : Started :=
  let declared := {| port := "8080"; V := false |} in
  let portString := ":" +:+ port declared in
  match Parse args declared with
  | None => Usage
  | Some parsed =>
      if V parsed then Exited 1 ("Version number: " +:+ VERSION_NUMBER +:+ " " +:+ newline)
      else if listen portString then Serving portString
      else Exited 0 ""
  end.

(** Its two handlers.  They execute the templates "time" and "http404" and
    drop the error [ExecuteTemplate] returns; it has no logger and no
    registry.  The clock is read twice, once per layout. *)
Definition localFormat (t : time.Time) : string := time.Format t.

(** [t.Format("15:04:05 UTC")]: the reading on the 24-hour clock, two digits
    each, followed by the letters of the layout that are no layout
    element. *)
Definition UTCFormat (t : time.Time) : string :=
  time.two_digits (time.hour t mod 24)
  +:+ ":" +:+ time.two_digits (time.minute t)
  +:+ ":" +:+ time.two_digits (time.second t)
  +:+ " UTC".

Definition timeHandler (t1 t2 : time.Time) (r : http.Request) : M unit :=
  let params := Params (<["localTime" := localFormat t1]>
                          (<["UTCTime" := UTCFormat t2]> ∅)) in
  let! _ := ExecuteTemplate "time" params in
  ret tt.

Definition notFound (r : http.Request) : M unit :=
  on_writer (http.WriteHeader http.StatusNotFound) >>
  let! _ := ExecuteTemplate "http404" Nil in
  ret tt.

Definition router (t1 t2 : time.Time) (r : http.Request) : M unit :=
  if String.eqb (http.URL r) "/time" then timeHandler t1 t2 r
  else notFound r.

Definition serve (g : Globals) (t1 t2 : time.Time) (r : http.Request) : Outcome :=
  match router t1 t2 r {| glob := g; rw := http.newResponseWriter |} with
  | Ret _ s => Responded (glob s) (http.finishRequest (rw s))
  | Exit code s => Terminated code (glob s)
  end.

End v101.


(** ** Notions used in the statements *)

(** A text splits as the pattern reads: a run of 2 to 35 letters, at most
    one space, a run of at most 35 letters. *)
Definition splits_as_pattern (cs : list ascii) : Prop :=
  exists w1 sp w2,
    cs = w1 ++ sp ++ w2 /\
    forallb is_alpha w1 = true /\ 2 <= length w1 <= 35 /\
    (sp = [] \/ sp = [" "%char]) /\
    forallb is_alpha w2 = true /\ length w2 <= 35.

(** The state a computation of a handler ends in. *)
Definition final {A} (res : Result A) : St :=
  match res with
  | Ret _ s => s
  | Exit _ s => s
  end.

(** Handler code that leaves the registry as it found it. *)
Definition keeps_users {A} (m : M A) : Prop :=
  forall s, users (glob (final (m s))) = users (glob s).

(** The identifier a handler gets out of a request: the value of the
    session cookie, or the empty string if the request has none. *)
Definition cookie_id (r : http.Request) : string :=
  match http.Request_Cookie r COOKIE_NAME with
  | inl c => http.Value c
  | inr _ => ""
  end.

(** The identifiers the generator is asked for over a sequence of requests,
    and the generator's contract on them: no identifier twice, none that is
    in the registry already. *)
Definition drawn (evs : list Event) : list string :=
  map (fun ev => uuid (fst ev)) (filter (fun ev => login_submit (snd ev) = true) evs).

Definition generator_fresh (u : gmap string people.Person) (evs : list Event) : Prop :=
  NoDup (drawn evs) /\ Forall (fun id => u !! id = None) (drawn evs).

(** The requests of a sequence that were answered. *)
Fixpoint handled (g : Globals) (evs : list Event) : list Event :=
  match evs with
  | [] => []
  | ev :: evs' =>
      match serve g ev with
      | Responded g' _ => ev :: handled g' evs'
      | Terminated _ _ => []
      end
  end.

Definition session_cookie (id : string) (maxAge : Z) : http.Cookie :=
  {| http.Name := "uuid"; http.Value := id; http.Path := "/"; http.MaxAge := maxAge |}.

Definition logged_out_response : http.Response :=
  {| http.StatusCode := 200;
     http.Headers := {| http.Location := None;
                        http.SetCookie := [session_cookie "deleted" (-1)] |};
     http.Body := [http.Rendered "logged-out.html" Nil] |}.

Definition plain (code : nat) (view : string) (d : any) : http.Response :=
  {| http.StatusCode := code; http.Headers := http.emptyHeader;
     http.Body := [http.Rendered view d] |}.

Definition redirect_to_login : http.Response :=
  {| http.StatusCode := 302;
     http.Headers := {| http.Location := Some "/login"; http.SetCookie := [] |};
     http.Body := [http.RedirectNote "/login" 302] |}.

Definition time_payload (t : time.Time) (name : string) : gmap string string :=
  <["time" := time.Format t]> (<["name" := name]> ∅).

(** ** Paths in canonical form

    Before a request reaches a handler, the server's mux and the router
    compare its path with the result of [cleanPath]; a request whose path
    differs is answered with a redirect (301) to the clean path and no
    handler runs. *)

Module path.

(** The elements of a path between its slashes; [cur] is the element being
    read, last byte first. *)
Fixpoint elements (cur : list ascii) (p : list ascii) : list (list ascii) :=
  match p with
  | [] => [rev cur]
  | c :: p' =>
      if Ascii.eqb c "/" then rev cur :: elements [] p'
      else elements (c :: cur) p'
  end.

(** One element more on the stack of elements kept so far (last one first):
    empty elements and "." are dropped, ".." removes the element before it,
    and is dropped at the root. *)
Definition keep (stack : list (list ascii)) (el : list ascii) : list (list ascii) :=
  if bool_decide (el = []) then stack
  else if bool_decide (el = ["."%char]) then stack
  else if bool_decide (el = ["."%char; "."%char]) then tail stack
  else el :: stack.

Fixpoint join (els : list (list ascii)) : list ascii :=
  match els with
  | [] => []
  | [el] => el
  | el :: els' => el ++ "/"%char :: join els'
  end.

(** [path.Clean] on a rooted path. *)
Definition Clean (p : list ascii) : list ascii :=
  "/"%char :: join (rev (fold_left keep (elements [] p) [])).

End path.

(** [cleanPath] of net/http (the router has its own copy): the path is
    rooted, cleaned, and gets its trailing slash back. *)
Definition cleanPath (p : string) : string :=
  match list_ascii_of_string p with
  | [] => "/"
  | c :: _ =>
      let rooted := if Ascii.eqb c "/" then list_ascii_of_string p
                    else "/"%char :: list_ascii_of_string p in
      let np := path.Clean rooted in
      string_of_list_ascii
        (if bool_decide (last rooted = Some "/"%char) && negb (bool_decide (np = ["/"%char]))
         then np ++ ["/"%char] else np)
  end.

(** A request reaches the handlers when its path is in canonical form. *)
Definition dispatched (r : http.Request) : Prop := cleanPath (http.URL r) = http.URL r.

(** ** Cookies as they are written

    [Cookie.String] of net/http on the fields the server sets: the line that
    [http.SetCookie] adds as Set-Cookie header. *)

Module cookie.

Definition isTokenByte (c : ascii) : bool :=
  regexp.in_class [("a", "z"); ("A", "Z"); ("0", "9")]%char c
  || existsb (Ascii.eqb c) (list_ascii_of_string "!#$%&'*+-.^_`|~").

Definition isCookieNameValid (name : string) : bool :=
  negb (String.eqb name "") && forallb isTokenByte (list_ascii_of_string name).

Definition validCookieValueByte (c : ascii) : bool :=
  let n := nat_of_ascii c in
  ((32 <=? n) && (n <? 127) && negb (n =? 34) && negb (n =? 59) && negb (n =? 92))%nat.

Definition validCookiePathByte (c : ascii) : bool :=
  let n := nat_of_ascii c in
  ((32 <=? n) && (n <? 127) && negb (n =? 59))%nat.

Definition quote : ascii := ascii_of_nat 34.

(** Bytes a value may not carry are left out; a value with a space or a
    comma is put between quotes. *)
Definition sanitizeCookieValue (v : string) : string :=
  let v' := List.filter validCookieValueByte (list_ascii_of_string v) in
  match v' with
  | [] => ""
  | _ =>
      if existsb (fun c => Ascii.eqb c " " || Ascii.eqb c ",") v'
      then string_of_list_ascii (quote :: v' ++ [quote])
      else string_of_list_ascii v'
  end.

Definition sanitizeCookiePath (p : string) : string :=
  string_of_list_ascii (List.filter validCookiePathByte (list_ascii_of_string p)).

(** [strconv.Itoa] on a positive number. *)
Fixpoint digits (fuel : nat) (n : N) (acc : string) : string :=
  match fuel with
  | 0 => acc
  | S fuel' =>
      let acc' := String (ascii_of_N (48 + n mod 10)) acc in
      if (n / 10 =? 0)%N then acc' else digits fuel' (n / 10)%N acc'
  end.

Definition Itoa (z : Z) : string :=
  match z with
  | Z0 => "0"
  | Zpos p => digits (Pos.size_nat p) (Npos p) ""
  | Zneg p => "-" +:+ digits (Pos.size_nat p) (Npos p) ""
  end.

(** A negative [MaxAge] is written as Max-Age=0. *)
Definition String (c : http.Cookie) : string :=
  if isCookieNameValid (http.Name c) then
    http.Name c +:+ "=" +:+ sanitizeCookieValue (http.Value c)
    +:+ (if String.eqb (http.Path c) "" then ""
         else "; Path=" +:+ sanitizeCookiePath (http.Path c))
    +:+ (if (0 <? http.MaxAge c)%Z then "; Max-Age=" +:+ Itoa (http.MaxAge c)
         else if (http.MaxAge c <? 0)%Z then "; Max-Age=0"
         else "")
  else "".

(** The Set-Cookie lines of a response; a cookie whose line is empty is not
    written. *)
Definition lines (h : http.Header) : list string :=
  List.filter (fun l => negb (String.eqb l "")) (map String (http.SetCookie h)).

End cookie.

(** A registry entry as the login handler makes them: filed under its own
    identifier, with a name the pattern accepts. *)
Definition validated (id : string) (p : people.Person) : Prop :=
  people.ID p = id /\ regexp.MatchString name_pattern (people.Name p) = true.

(** An argument that is written as the port flag. *)
Definition names_port (arg : string) : bool :=
  match flag_name arg with
  | Some n => String.eqb (fst (split_value n)) "port"
  | None => false
  end.

(** The registered paths. *)
Definition routes : list string := ["/"; "/index.html"; "/login"; "/logout"; "/time"].

(** ** Sample data *)

Definition site_templates : gset string :=
  list_to_set ["greetings.html"; "login.html"; "logged-out.html"; "404.html"; "time.html"].

Definition site_templates_without_login : gset string :=
  list_to_set ["greetings.html"; "logged-out.html"; "404.html"; "time.html"].

Definition site_templates_without_time : gset string :=
  list_to_set ["greetings.html"; "login.html"; "logged-out.html"; "404.html"].

Definition evening : time.Time :=
  {| time.hour := 17; time.minute := 59; time.second := 36 |}.

Definition env1 : Env := {| now := evening; uuid := "0e0cd4a2" |}.
Definition env2 : Env := {| now := evening; uuid := "7b51c9f0" |}.

Definition sent_cookie (id : string) : http.Cookie :=
  {| http.Name := "uuid"; http.Value := id; http.Path := ""; http.MaxAge := 0 |}.

Definition sent_cookie_other : http.Cookie :=
  {| http.Name := "theme"; http.Value := "dark"; http.Path := ""; http.MaxAge := 0 |}.

Definition get (path : string) (cookies : list http.Cookie) : http.Request :=
  {| http.Method := "GET"; http.URL := path; http.Cookies := cookies; http.Form := [] |}.

Definition post_login (name : string) : http.Request :=
  {| http.Method := "POST"; http.URL := "/login"; http.Cookies := [];
     http.Form := [("name", name)] |}.

Definition post_logout : http.Request :=
  {| http.Method := "POST"; http.URL := "/logout";
     http.Cookies := [sent_cookie "stale"]; http.Form := [] |}.

Definition put_login : http.Request :=
  {| http.Method := "PUT"; http.URL := "/login"; http.Cookies := []; http.Form := [] |}.

Definition jane_logged_in : Globals :=
  globals_of (serve (startup site_templates) (env1, post_login "Jane Doe")).

Definition thirty_six_letters : string := "abcdefghijklmnopqrstuvwxyzabcdefghij".

(** * Properties *)

(** ** The matcher decides the language of the expression *)

Section regexp_facts.
Import regexp.

Lemma matches_Eps_inv s : matches Eps s <-> s = [].
Proof. split; [inversion 1; done | intros ->; constructor]. Qed.

Lemma matches_Void_inv s : ~ matches Void s.
Proof. inversion 1. Qed.

Lemma matches_Class_inv ranges s :
  matches (Class ranges) s <-> exists c, s = [c] /\ in_class ranges c = true.
Proof.
  split.
  - inversion 1; subst; eauto.
  - intros (c & -> & Hc). by constructor.
Qed.

Lemma matches_Cat_inv r1 r2 s :
  matches (Cat r1 r2) s <-> exists s1 s2, s = s1 ++ s2 /\ matches r1 s1 /\ matches r2 s2.
Proof.
  split.
  - inversion 1; subst; eauto.
  - intros (s1 & s2 & -> & H1 & H2). by constructor.
Qed.

Lemma matches_Alt_inv r1 r2 s :
  matches (Alt r1 r2) s <-> matches r1 s \/ matches r2 s.
Proof.
  split.
  - inversion 1; subst; auto.
  - intros [H | H]; [by apply MAltL | by apply MAltR].
Qed.

Lemma matches_Rep_inv r lo hi s :
  matches (Rep r lo hi) s <->
  (lo = 0 /\ s = []) \/
  (exists hi' s1 s2, hi = S hi' /\ s = s1 ++ s2 /\ matches r s1 /\
                     matches (Rep r (pred lo) hi') s2).
Proof.
  split.
  - inversion 1; subst; [by left | right; eauto 8].
  - intros [[-> ->] | (hi' & s1 & s2 & -> & -> & H1 & H2)]; by constructor.
Qed.

Lemma matches_Rep_nil r lo hi :
  matches r [] -> lo <= hi -> matches (Rep r lo hi) [].
Proof.
  intros Hr. revert lo. induction hi as [|hi IH]; intros lo Hle.
  - replace lo with 0 by lia. constructor.
  - change (@nil ascii) with (@nil ascii ++ []). constructor; [done |].
    apply IH. lia.
Qed.

Lemma nullable_spec r : nullable r = true <-> matches r [].
Proof.
  split.
  - induction r as [| |ranges|r1 IH1 r2 IH2|r1 IH1 r2 IH2|r IH lo hi]; simpl; intros H.
    + constructor.
    + done.
    + done.
    + apply andb_true_iff in H as [H1 H2].
      change (@nil ascii) with (@nil ascii ++ []). constructor; auto.
    + apply orb_true_iff in H as [H | H]; [apply MAltL | apply MAltR]; auto.
    + apply orb_true_iff in H as [H | H].
      * apply Nat.eqb_eq in H as ->. constructor.
      * apply andb_true_iff in H as [H1 H2]. apply Nat.leb_le in H2.
        apply matches_Rep_nil; auto.
  - intros H. remember [] as s eqn:Hs. induction H; simpl; subst; try done.
    + apply app_eq_nil in Hs as [-> ->]. rewrite IHmatches1, IHmatches2; done.
    + rewrite IHmatches; done.
    + rewrite IHmatches; [|done]. apply orb_true_r.
    + apply app_eq_nil in Hs as [-> ->].
      specialize (IHmatches1 eq_refl). specialize (IHmatches2 eq_refl).
      simpl in IHmatches2. rewrite IHmatches1. simpl.
      apply orb_true_iff in IHmatches2 as [H1 | H1].
      * apply Nat.eqb_eq in H1. apply orb_true_iff. right. apply Nat.leb_le. lia.
      * rewrite IHmatches1 in H1. simpl in H1. apply Nat.leb_le in H1.
        apply orb_true_iff. right. apply Nat.leb_le. lia.
Qed.

Lemma deriv_Rep_sound c r :
  (forall s, matches r (c :: s) -> matches (deriv c r) s) ->
  forall hi lo s, matches (Rep r lo hi) (c :: s) -> matches (deriv c (Rep r lo hi)) s.
Proof.
  intros IH. induction hi as [|hi IHhi]; intros lo s H.
  - apply matches_Rep_inv in H as [[_ ?] | (hi' & _ & _ & ? & _)]; done.
  - apply matches_Rep_inv in H as [[_ ?] | (hi' & s1 & s2 & [= <-] & Hs & H1 & H2)]; [done |].
    simpl. destruct s1 as [|c' s1]; simpl in Hs.
    + subst s2. specialize (IHhi _ _ H2). destruct hi as [|hi]; simpl in IHhi.
      * by apply matches_Void_inv in IHhi.
      * apply matches_Cat_inv in IHhi as (t1 & t2 & -> & Ht1 & Ht2).
        constructor; [done |].
        change t2 with ([] ++ t2). by constructor.
    + injection Hs as <- ->. constructor; auto.
Qed.

Lemma deriv_spec c r s : matches (deriv c r) s <-> matches r (c :: s).
Proof.
  revert s. induction r as [| |ranges|r1 IH1 r2 IH2|r1 IH1 r2 IH2|r IH lo hi]; intros s.
  - simpl. split; inversion 1.
  - simpl. split; inversion 1.
  - simpl. rewrite matches_Class_inv. destruct (in_class ranges c) eqn:Hc.
    + rewrite matches_Eps_inv. split.
      * intros ->. eauto.
      * intros (c' & ? & _). by simplify_eq.
    + split; [inversion 1 |]. intros (c' & ? & ?). simplify_eq. congruence.
  - rewrite matches_Cat_inv. simpl. destruct (nullable r1) eqn:Hn.
    + rewrite matches_Alt_inv, matches_Cat_inv. split.
      * intros [(s1 & s2 & -> & H1 & H2) | H].
        -- exists (c :: s1), s2. rewrite <- IH1. done.
        -- exists [], (c :: s). rewrite <- IH2, <- nullable_spec. done.
      * intros (s1 & s2 & Hs & H1 & H2). destruct s1 as [|c' s1]; simpl in Hs.
        -- right. subst s2. by apply IH2.
        -- injection Hs as <- ->. left. exists s1, s2. rewrite IH1. done.
    + rewrite matches_Cat_inv. split.
      * intros (s1 & s2 & -> & H1 & H2). exists (c :: s1), s2. rewrite <- IH1. done.
      * intros (s1 & s2 & Hs & H1 & H2). destruct s1 as [|c' s1]; simpl in Hs.
        -- apply nullable_spec in H1. congruence.
        -- injection Hs as <- ->. exists s1, s2. rewrite IH1. done.
  - simpl. rewrite !matches_Alt_inv, IH1, IH2. done.
  - split.
    + destruct hi as [|hi]; simpl; [inversion 1 |].
      intros (s1 & s2 & -> & H1 & H2)%matches_Cat_inv.
      change (c :: s1 ++ s2) with ((c :: s1) ++ s2). constructor; [by apply IH | done].
    + apply deriv_Rep_sound. intros s'. apply IH.
Qed.

Lemma matchb_spec r s : matchb r s = true <-> matches r s.
Proof.
  revert r. induction s as [|c s IH]; intros r; simpl.
  - apply nullable_spec.
  - rewrite IH. apply deriv_spec.
Qed.

(** A bounded repetition of a class is a run of members of the class. *)
Lemma matches_Rep_Class ranges lo hi s :
  matches (Rep (Class ranges) lo hi) s <->
  forallb (in_class ranges) s = true /\ lo <= length s <= hi.
Proof.
  revert lo s. induction hi as [|hi IH]; intros lo s; rewrite matches_Rep_inv.
  - split.
    + intros [[-> ->] | (hi' & ? & ? & ? & _)]; [simpl; split; [done | lia] | done].
    + intros [_ Hlen]. left. destruct s; simpl in *; [split; [lia | done] | lia].
  - split.
    + intros [[-> ->] | (hi' & s1 & s2 & [= <-] & -> & H1 & H2)].
      * simpl. split; [done | lia].
      * apply matches_Class_inv in H1 as (c & -> & Hc). apply IH in H2 as [H2 Hlen].
        simpl. rewrite Hc, H2. split; [done | lia].
    + intros [Hall Hlen]. destruct s as [|c s]; simpl in *.
      * left. split; [lia | done].
      * right. apply andb_true_iff in Hall as [Hc Hall].
        exists hi, [c], s. split_and!; [done | done | by constructor |].
        apply IH. split; [done | lia].
Qed.

End regexp_facts.

(** ** The names the login handler accepts *)

Section name_facts.

Lemma in_class_space c : regexp.in_class [(" ", " ")]%char c = true <-> c = " "%char.
Proof.
  destruct c as [[] [] [] [] [] [] [] []]; vm_compute; split; congruence.
Qed.

Lemma is_alpha_space : is_alpha " " = false.
Proof. reflexivity. Qed.

Lemma matches_space sp :
  regexp.matches (regexp.Rep space 0 1) sp <-> sp = [] \/ sp = [" "%char].
Proof.
  unfold space. rewrite matches_Rep_Class. split.
  - intros [Hall Hlen]. destruct sp as [|c [|c' sp]]; simpl in *; [by left | | lia].
    right. rewrite andb_true_r in Hall. apply in_class_space in Hall. by subst.
  - intros [-> | ->]; simpl; split; (done || lia).
Qed.

Lemma MatchString_name_pattern s :
  regexp.MatchString name_pattern s = true <-> splits_as_pattern (list_ascii_of_string s).
Proof.
  unfold regexp.MatchString, name_pattern, splits_as_pattern.
  rewrite matchb_spec, matches_Cat_inv. split.
  - intros (w1 & rest & -> & H1 & (sp & w2 & -> & Hsp & H2)%matches_Cat_inv).
    apply matches_Rep_Class in H1 as [H1 Hl1].
    apply matches_Rep_Class in H2 as [H2 Hl2].
    apply matches_space in Hsp.
    exists w1, sp, w2. split_and!; (done || lia).
  - intros (w1 & sp & w2 & -> & H1 & Hl1 & Hsp & H2 & Hl2).
    exists w1, (sp ++ w2). split_and!; [done | | ].
    + apply matches_Rep_Class. done.
    + apply matches_Cat_inv. exists sp, w2. split_and!; [done | |].
      * by apply matches_space.
      * apply matches_Rep_Class. split; [done | lia].
Qed.

Lemma leading_run_app w rest :
  forallb is_alpha w = true ->
  leading_run (w ++ rest) = (w ++ fst (leading_run rest), snd (leading_run rest)).
Proof.
  induction w as [|c w IH]; simpl; intros H.
  - by destruct (leading_run rest).
  - apply andb_true_iff in H as [Hc Hw]. rewrite Hc, (IH Hw). done.
Qed.

Lemma leading_run_letters w :
  forallb is_alpha w = true -> leading_run w = (w, []).
Proof.
  intros H. rewrite <- (app_nil_r w) at 1. rewrite leading_run_app by done.
  simpl. by rewrite app_nil_r.
Qed.

Lemma leading_run_space w w2 :
  forallb is_alpha w = true ->
  leading_run (w ++ " "%char :: w2) = (w, " "%char :: w2).
Proof.
  intros H. rewrite leading_run_app by done. simpl. by rewrite app_nil_r.
Qed.

Lemma leading_run_spec cs :
  cs = fst (leading_run cs) ++ snd (leading_run cs) /\
  forallb is_alpha (fst (leading_run cs)) = true.
Proof.
  induction cs as [|c cs [IH1 IH2]]; simpl; [done |].
  destruct (is_alpha c) eqn:Hc; simpl; [| done].
  rewrite Hc, IH2. split; [by rewrite <- IH1 | done].
Qed.

(** Every name of the specification's grammar passes the handler's check. *)
Lemma name_grammar_accepted s :
  name_grammar s = true -> regexp.MatchString name_pattern s = true.
Proof.
  intros H. apply MatchString_name_pattern. unfold name_grammar in H.
  destruct (leading_run_spec (list_ascii_of_string s)) as [Hs Hw1].
  destruct (leading_run (list_ascii_of_string s)) as [w1 rest]; cbn [fst snd] in *.
  apply andb_true_iff in H as [[Hlo Hhi]%andb_true_iff Hrest].
  apply Nat.leb_le in Hlo, Hhi.
  destruct rest as [|c w2].
  - exists w1, [], []. rewrite Hs. split_and!; simpl; auto with lia.
  - apply andb_true_iff in Hrest as [[Hc Hw2]%andb_true_iff Hl2].
    apply Ascii.eqb_eq in Hc as ->. apply Nat.leb_le in Hl2.
    exists w1, [" "%char], w2. rewrite Hs. split_and!; simpl; auto with lia.
Qed.

(** An unbroken run of 36 to 70 letters passes it as well. *)
Lemma long_run_accepted s :
  forallb is_alpha (list_ascii_of_string s) = true ->
  36 <= length (list_ascii_of_string s) <= 70 ->
  regexp.MatchString name_pattern s = true.
Proof.
  intros Hall Hlen. apply MatchString_name_pattern.
  set (cs := list_ascii_of_string s) in *.
  rewrite <- (take_drop 35 cs), forallb_app in Hall.
  apply andb_true_iff in Hall as [H1 H2].
  exists (take 35 cs), [], (drop 35 cs). simpl. rewrite take_drop.
  rewrite length_take, length_drop. split_and!; auto with lia.
Qed.

Lemma name_grammar_intro s w1 rest :
  leading_run (list_ascii_of_string s) = (w1, rest) ->
  2 <= length w1 <= 35 ->
  rest = [] \/
  (exists w2, rest = " "%char :: w2 /\ forallb is_alpha w2 = true /\ length w2 <= 35) ->
  name_grammar s = true.
Proof.
  intros Hrun Hlen Hrest. unfold name_grammar. rewrite Hrun.
  apply andb_true_iff; split; [apply andb_true_iff; split; apply Nat.leb_le; lia |].
  destruct Hrest as [-> | (w2 & -> & Hw2 & Hl2)]; [done |].
  rewrite Hw2. apply andb_true_iff; split; [done | apply Nat.leb_le; lia].
Qed.

Lemma accepted_cases s :
  regexp.MatchString name_pattern s = true ->
  name_grammar s = true \/
  (forallb is_alpha (list_ascii_of_string s) = true /\
   36 <= length (list_ascii_of_string s) <= 70).
Proof.
  intros (w1 & sp & w2 & Hs & H1 & Hl1 & Hsp & H2 & Hl2)%MatchString_name_pattern.
  destruct Hsp as [-> | ->]; cbn [app] in Hs.
  - assert (Hall : forallb is_alpha (w1 ++ w2) = true)
      by (rewrite forallb_app, H1, H2; done).
    destruct (decide (length w1 + length w2 <= 35)) as [Hle | Hgt].
    + left. apply (name_grammar_intro s (w1 ++ w2) []); [| | by left].
      * rewrite Hs. by apply leading_run_letters.
      * rewrite length_app. lia.
    + right. rewrite Hs, length_app. split; [done | lia].
  - left. apply (name_grammar_intro s w1 (" "%char :: w2)); [| done | right; eauto].
    rewrite Hs. by apply leading_run_space.
Qed.

(** The pattern on the sample names of the specification. *)
Example pattern_on_samples :
  map (regexp.MatchString name_pattern)
      ["Jane Doe"; "Jane"; "Jane "; "a"; "A1"; "John  Doe"; ""; " Jane"; "123"]
  = [true; true; true; false; false; false; false; false; false].
Proof. reflexivity. Qed.

Example grammar_on_samples :
  map name_grammar
      ["Jane Doe"; "Jane"; "Jane "; "a"; "A1"; "John  Doe"; ""; " Jane"; "123"]
  = [true; true; true; false; false; false; false; false; false].
Proof. reflexivity. Qed.

Example Format_samples :
  map time.Format
      [ {| time.hour := 0; time.minute := 4; time.second := 5 |};
        {| time.hour := 12; time.minute := 0; time.second := 0 |};
        {| time.hour := 23; time.minute := 59; time.second := 59 |} ]
  = ["12:04:05 AM"; "12:00:00 PM"; "11:59:59 PM"].
Proof. reflexivity. Qed.

End name_facts.

(** ** Running the handlers *)

Lemma keeps_users_ret {A} (a : A) : keeps_users (ret a).
Proof. done. Qed.

Lemma keeps_users_bind {A B} (m : M A) (k : A -> M B) :
  keeps_users m -> (forall a, keeps_users (k a)) -> keeps_users (bind m k).
Proof.
  intros Hm Hk s. unfold bind. specialize (Hm s).
  destruct (m s) as [a s' | code s']; simpl in *; [| done].
  rewrite <- Hm. apply Hk.
Qed.

Lemma keeps_users_emit l msg : keeps_users (emit l msg).
Proof. done. Qed.

Lemma keeps_users_on_writer f : keeps_users (on_writer f).
Proof. done. Qed.

Lemma keeps_users_os_Exit {A} code : keeps_users (@os_Exit A code).
Proof. done. Qed.

Lemma keeps_users_get_users : keeps_users get_users.
Proof. done. Qed.

Lemma keeps_users_ExecuteTemplate name d : keeps_users (ExecuteTemplate name d).
Proof. intros s. unfold ExecuteTemplate. by case_decide. Qed.

Lemma keeps_users_if {A} (b : bool) (m1 m2 : M A) :
  keeps_users m1 -> keeps_users m2 -> keeps_users (if b then m1 else m2).
Proof. by destruct b. Qed.

Create HintDb keeps discriminated.
#[global] Hint Resolve keeps_users_ret keeps_users_emit keeps_users_on_writer
  keeps_users_os_Exit keeps_users_get_users keeps_users_ExecuteTemplate : keeps.

Ltac keeps :=
  repeat first
    [ apply keeps_users_bind; [| intros ? ]
    | apply keeps_users_if
    | solve [ auto with keeps ]
    | match goal with |- keeps_users (match ?x with _ => _ end) => destruct x end ].

Lemma keeps_users_renderTemplate templ d : keeps_users (renderTemplate templ d).
Proof. unfold renderTemplate, log_Fatal. keeps. Qed.

Lemma keeps_users_idFromUUIDCookie r : keeps_users (idFromUUIDCookie r).
Proof. unfold idFromUUIDCookie, log_Debug. keeps. Qed.

#[global] Hint Resolve keeps_users_renderTemplate keeps_users_idFromUUIDCookie : keeps.

Lemma keeps_users_handleDefault e r : keeps_users (handleDefault e r).
Proof. unfold handleDefault, info, log_Info, log_Debug. keeps. Qed.

Lemma keeps_users_handleLogout e r : keeps_users (handleLogout e r).
Proof. unfold handleLogout, info, log_Info, setCookie. keeps. Qed.

Lemma keeps_users_handleNotFound e r : keeps_users (handleNotFound e r).
Proof. unfold handleNotFound, info, log_Info. keeps. Qed.

Lemma keeps_users_handleTime e r : keeps_users (handleTime e r).
Proof. unfold handleTime, info, log_Info. keeps. Qed.

(** The login handler keeps the registry unless the request is a submit
    with a name the pattern accepts. *)
Lemma keeps_users_handleLogin e r :
  (String.eqb (http.Method r) "POST"
   && regexp.MatchString name_pattern (http.FormValue r "name")) = false ->
  keeps_users (handleLogin e r).
Proof.
  intros H. unfold handleLogin, info, log_Info, log_Debug.
  apply keeps_users_bind; [auto with keeps | intros _].
  destruct (String.eqb (http.Method r) "GET"); [keeps |].
  destruct (String.eqb (http.Method r) "POST"); [| keeps].
  simpl in H. rewrite H. keeps.
Qed.

Lemma globals_of_serve g ev :
  globals_of (serve g ev) =
  glob (final (router (fst ev) (snd ev) {| glob := g; rw := http.newResponseWriter |})).
Proof. unfold serve. by destruct (router _ _ _). Qed.

Lemma renderTemplate_found templ d s :
  (templ +:+ ".html") ∈ templates (glob s) ->
  renderTemplate templ d s =
  Ret tt {| glob := glob s; rw := http.Write (http.Rendered (templ +:+ ".html") d) (rw s) |}.
Proof.
  intros H. unfold renderTemplate, bind, ExecuteTemplate.
  rewrite decide_True by done. done.
Qed.

Lemma renderTemplate_missing templ d s :
  (templ +:+ ".html") ∉ templates (glob s) ->
  renderTemplate templ d s =
  Exit 1 {| glob := logging (glob s) [(FatalLevel, "Error looking for template: " +:+ templ)];
            rw := rw s |}.
Proof.
  intros H. unfold renderTemplate, bind, ExecuteTemplate.
  rewrite decide_False by done. done.
Qed.

Lemma idFromUUIDCookie_eq r s :
  exists err, idFromUUIDCookie r s = Ret (cookie_id r, err) s.
Proof.
  unfold idFromUUIDCookie, cookie_id, bind, log_Debug, ret.
  destruct (http.Request_Cookie r COOKIE_NAME) as [c | []]; eauto.
Qed.

Ltac run_handler :=
  cbv [bind ret info log_Info log_Debug log_Fatal emit os_Exit get_users put_users
       setCookie on_writer glob rw fst snd].

Ltac run_writer :=
  cbv [http.finishRequest http.Redirect http.SetCookie_ http.WriteHeader http.Write
       http.newResponseWriter http.emptyHeader http.header http.wroteHeader http.status
       http.sent http.body http.SetCookie http.Location].

(** The registry after a request: one more Person after an accepted login
    submit, the same registry after anything else, whether the request was
    answered or the process ended under it. *)
Lemma serve_registry g ev :
  registry_of (serve g ev) =
  if login_submit (snd ev)
  then people.Add (users g)
         (people.NewPerson (uuid (fst ev)) (http.FormValue (snd ev) "name"))
  else users g.
Proof.
  destruct ev as [e r]. unfold registry_of. rewrite globals_of_serve.
  unfold router, login_submit. cbn [fst snd].
  destruct (String.eqb_spec (http.URL r) "/") as [-> | _];
    [apply keeps_users_handleDefault |].
  destruct (String.eqb_spec (http.URL r) "/index.html") as [-> | _];
    [apply keeps_users_handleDefault |].
  destruct (String.eqb_spec (http.URL r) "/login") as [_ | _].
  - destruct (String.eqb (http.Method r) "POST"
              && regexp.MatchString name_pattern (http.FormValue r "name")) eqn:H.
    + apply andb_true_iff in H as [HM HV]. simpl.
      unfold handleLogin. rewrite HV.
      apply String.eqb_eq in HM. rewrite HM. by run_handler.
    + simpl. rewrite H. by apply keeps_users_handleLogin.
  - simpl.
    destruct (String.eqb (http.URL r) "/logout"); [apply keeps_users_handleLogout |].
    destruct (String.eqb (http.URL r) "/time");
      [apply keeps_users_handleTime | apply keeps_users_handleNotFound].
Qed.

Lemma serve_login_submit g e r :
  login_submit r = true ->
  serve g (e, r) =
  Responded
    (with_users (logging g [(InfoLevel, "Login handler called.")])
       (people.Add (users g) (people.NewPerson (uuid e) (http.FormValue r "name"))))
    {| http.StatusCode := 302;
       http.Headers := {| http.Location := Some "/";
                          http.SetCookie := [session_cookie (uuid e) 86400] |};
       http.Body := [] |}.
Proof.
  unfold login_submit.
  intros [[HU%String.eqb_eq HM%String.eqb_eq]%andb_true_iff HV]%andb_true_iff.
  unfold serve, router. cbn [fst snd]. rewrite HU. cbn [String.eqb Ascii.eqb Bool.eqb].
  unfold handleLogin. rewrite HM, HV. run_handler. run_writer. rewrite HM. done.
Qed.


(** ** The registry over the life of the process *)

Lemma run_cons l ev evs : run l (ev :: evs) = run (step l ev) evs.
Proof. reflexivity. Qed.

Lemma run_app l evs1 evs2 : run l (evs1 ++ evs2) = run (run l evs1) evs2.
Proof. apply fold_left_app. Qed.

Lemma run_Halted code g evs : run (Halted code g) evs = Halted code g.
Proof. induction evs as [|ev evs IH]; [done | by rewrite run_cons]. Qed.

Lemma registry_step g ev : registry (step (Running g) ev) = registry_of (serve g ev).
Proof. unfold registry_of. simpl. by destruct (serve g ev). Qed.

Lemma drawn_cons ev evs :
  drawn (ev :: evs) =
  if login_submit (snd ev) then uuid (fst ev) :: drawn evs else drawn evs.
Proof.
  unfold drawn. destruct (login_submit (snd ev)) eqn:H.
  - by rewrite filter_cons_True.
  - rewrite filter_cons_False; [done | congruence].
Qed.

Lemma drawn_app evs1 evs2 : drawn (evs1 ++ evs2) = drawn evs1 ++ drawn evs2.
Proof. unfold drawn. by rewrite filter_app, map_app. Qed.

Lemma generator_fresh_cons u ev evs :
  generator_fresh u (ev :: evs) ->
  generator_fresh
    (if login_submit (snd ev)
     then people.Add u (people.NewPerson (uuid (fst ev)) (http.FormValue (snd ev) "name"))
     else u) evs /\
  (login_submit (snd ev) = true -> u !! uuid (fst ev) = None).
Proof.
  unfold generator_fresh. rewrite drawn_cons.
  destruct (login_submit (snd ev)); [| by intros [Hnd Hall]].
  intros [[Hnew Hnd]%NoDup_cons [Hid Hall]%Forall_cons]. split_and!; [done | | done].
  rewrite Forall_forall in Hall. apply Forall_forall. intros id Hin.
  unfold people.Add. simpl. rewrite lookup_insert_ne; [by apply Hall |].
  by intros <-.
Qed.

(** Handling requests only ever extends the registry, and only by
    identifiers the generator was asked for. *)
Lemma run_grows l evs :
  generator_fresh (registry l) evs ->
  registry l ⊆ registry (run l evs) /\
  dom (registry (run l evs)) ⊆ dom (registry l) ∪ list_to_set (drawn evs).
Proof.
  revert l. induction evs as [|ev evs IH]; intros l Hfresh.
  - simpl. split; [done | apply union_subseteq_l].
  - destruct l as [g | code g];
      [| rewrite run_Halted; split; [done | apply union_subseteq_l]].
    rewrite run_cons. apply generator_fresh_cons in Hfresh as [Hfresh Hid].
    specialize (IH (step (Running g) ev)).
    rewrite registry_step, serve_registry in IH. destruct (IH Hfresh) as [IH1 IH2].
    rewrite drawn_cons. simpl. destruct (login_submit (snd ev)).
    + split.
      * etrans; [| exact IH1]. apply insert_subseteq. by apply Hid.
      * etrans; [exact IH2 |]. unfold people.Add. rewrite dom_insert. simpl.
        apply elem_of_subseteq. intros x. rewrite !elem_of_union. tauto.
    + done.
Qed.

Lemma run_size g evs :
  generator_fresh (users g) evs ->
  size (registry (run (Running g) evs)) =
  size (users g) + length (filter (fun ev => login_submit (snd ev) = true) (handled g evs)).
Proof.
  revert g. induction evs as [|ev evs IH]; intros g Hfresh.
  - simpl. lia.
  - rewrite run_cons. apply generator_fresh_cons in Hfresh as [Hfresh Hid].
    pose proof (serve_registry g ev) as Hreg. unfold registry_of in Hreg.
    simpl. destruct (serve g ev) as [g' resp | code g'] eqn:Hs; simpl in Hreg.
    + rewrite IH by (by rewrite Hreg). rewrite Hreg.
      destruct (login_submit (snd ev)) eqn:Hl.
      * rewrite filter_cons_True by done. unfold people.Add. simpl.
        rewrite map_size_insert_None by auto. by rewrite Nat.add_succ_r.
      * rewrite filter_cons_False by congruence. done.
    + rewrite run_Halted. simpl. rewrite Hreg.
      destruct (login_submit (snd ev)) eqn:Hl; [| lia].
      destruct ev as [e r]. rewrite (serve_login_submit _ _ _ Hl) in Hs. done.
Qed.

Lemma generator_fresh_app u g evs1 evs2 :
  users g = u ->
  generator_fresh u (evs1 ++ evs2) ->
  generator_fresh u evs1 /\
  generator_fresh (registry (run (Running g) evs1)) evs2.
Proof.
  intros <-. unfold generator_fresh. rewrite drawn_app.
  intros [(Hnd1 & Hdisj & Hnd2)%NoDup_app [Hall1 Hall2]%Forall_app].
  split; [done |]. split; [done |].
  apply Forall_forall. intros id Hin. apply not_elem_of_dom.
  destruct (run_grows (Running g) evs1) as [_ Hdom]; [done |].
  intros Hd. apply Hdom in Hd. apply elem_of_union in Hd as [Hd | Hd].
  - apply elem_of_dom in Hd as [p Hp]. simpl in Hp.
    rewrite Forall_forall in Hall2. rewrite (Hall2 id Hin) in Hp. done.
  - apply elem_of_list_to_set in Hd. by apply (Hdisj id).
Qed.

(** As long as the generator never yields the empty identifier, no Person
    is registered under it, so that a request without the cookie resolves to
    nobody. *)
Lemma run_empty_id_unregistered l evs :
  registry l !! "" = None ->
  Forall (fun id => id <> "") (drawn evs) ->
  registry (run l evs) !! "" = None.
Proof.
  revert l. induction evs as [|ev evs IH]; intros l Hl Hall; [done |].
  destruct l as [g | code g]; [| by rewrite run_Halted].
  rewrite run_cons. rewrite drawn_cons in Hall. apply IH.
  - rewrite registry_step, serve_registry. destruct (login_submit (snd ev)); [| done].
    apply Forall_cons in Hall as [Hid _]. unfold people.Add. simpl.
    by rewrite lookup_insert_ne.
  - destruct (login_submit (snd ev)); [by apply Forall_cons in Hall as [_ ?] | done].
Qed.

(** ** Login *)

(** C1.  A POST to /login with a name the validation accepts (a name of the
    specification's grammar, or any name the handler's pattern matches),
    while the generator yields an identifier not yet in the registry, adds
    exactly one entry -- the Person with that identifier and the submitted
    name --, answers 302 to "/" with the cookie uuid=<id>, Max-Age 86400,
    Path "/", and from then on the registry resolves the identifier to the
    submitted name, also after any further requests. *)
Theorem login_submit_creates_session g e r name :
  http.URL r = "/login" ->
  http.Method r = "POST" ->
  http.FormValue r "name" = name ->
  name_grammar name = true \/ regexp.MatchString name_pattern name = true ->
  users g !! uuid e = None ->
  let o := serve g (e, r) in
  let person := {| people.ID := uuid e; people.Name := name |} in
  registry_of o = <[uuid e := person]> (users g) /\
  size (registry_of o) = S (size (users g)) /\
  response_of o =
    Some {| http.StatusCode := 302;
            http.Headers := {| http.Location := Some "/";
                               http.SetCookie := [session_cookie (uuid e) 86400] |};
            http.Body := [] |} /\
  people.NameOf (registry_of o) (uuid e) = name /\
  (forall evs,
      generator_fresh (registry_of o) evs ->
      people.NameOf (registry (run (Running (globals_of o)) evs)) (uuid e) = name).
Proof.
  intros HU HM HF Hvalid Hfresh o person.
  assert (HV : regexp.MatchString name_pattern name = true)
    by (destruct Hvalid; [by apply name_grammar_accepted | done]).
  assert (Hsub : login_submit r = true).
  { unfold login_submit. rewrite HU, HM, HF, HV. done. }
  assert (Ho : registry_of o = <[uuid e := person]> (users g)).
  { subst o. rewrite serve_registry. simpl. rewrite Hsub, HF. done. }
  assert (Hid : registry_of o !! uuid e = Some person)
    by (rewrite Ho; apply lookup_insert_eq).
  split_and!.
  - done.
  - rewrite Ho. by apply map_size_insert_None.
  - subst o. rewrite (serve_login_submit _ _ _ Hsub). done.
  - unfold people.NameOf. by rewrite Hid.
  - intros evs Hevs. destruct (run_grows (Running (globals_of o)) evs) as [Hsubset _].
    { done. }
    unfold people.NameOf.
    rewrite (lookup_weaken _ _ _ _ Hid Hsubset). done.
Qed.

Lemma login_submit_creates_session_witness :
  users (startup site_templates) !! uuid env1 = None /\
  let o := serve (startup site_templates) (env1, post_login "Jane Doe") in
  size (registry_of o) = 1 /\
  response_of o =
    Some {| http.StatusCode := 302;
            http.Headers := {| http.Location := Some "/";
                               http.SetCookie := [session_cookie "0e0cd4a2" 86400] |};
            http.Body := [] |} /\
  people.NameOf (registry_of o) "0e0cd4a2" = "Jane Doe".
Proof.
  assert (Hfresh : users (startup site_templates) !! uuid env1 = None) by reflexivity.
  split; [exact Hfresh |].
  destruct (login_submit_creates_session (startup site_templates) env1
              (post_login "Jane Doe") "Jane Doe" eq_refl eq_refl eq_refl
              (or_introl eq_refl) Hfresh) as (_ & Hsize & Hresp & Hname & _).
  split_and!; [exact Hsize | exact Hresp | exact Hname].
Defined.

(** ** The registry is append-only *)

(** The requests that count as login submits: POST to "/login" with a name
    of the grammar or an unbroken run of 36 to 70 letters. *)
Lemma login_submit_spec r :
  login_submit r = true <->
  http.URL r = "/login" /\ http.Method r = "POST" /\
  (name_grammar (http.FormValue r "name") = true \/
   (forallb is_alpha (list_ascii_of_string (http.FormValue r "name")) = true /\
    36 <= length (list_ascii_of_string (http.FormValue r "name")) <= 70)).
Proof.
  unfold login_submit. rewrite !andb_true_iff, !String.eqb_eq. split.
  - intros [[HU HM] HV]. split_and!; [done | done |]. by apply accepted_cases.
  - intros (HU & HM & [Hg | [Hall Hlen]]); (split; [done |]).
    + by apply name_grammar_accepted.
    + by apply long_run_accepted.
Qed.

(** C6, as the code has it.  Over every sequence of requests, as long as the
    generator never repeats an identifier: the registry at any moment is
    contained in the registry at any later moment (no entry is removed, none
    is changed, so an identifier names one Person for good); a single
    request leaves the registry alone unless it is a POST to /login with a
    name the handler accepts -- a name of the grammar or an unbroken run of
    36 to 70 letters --, which inserts one Person; and the number of entries
    added is the number of such submits answered. *)
Theorem registry_only_grows g evs1 evs2 :
  generator_fresh (users g) (evs1 ++ evs2) ->
  let before := registry (run (Running g) evs1) in
  let after := registry (run (Running g) (evs1 ++ evs2)) in
  before ⊆ after /\
  (forall id p, before !! id = Some p -> after !! id = Some p) /\
  size after =
    size (users g) +
    length (filter (fun ev => login_submit (snd ev) = true) (handled g (evs1 ++ evs2))) /\
  (forall ev,
      registry_of (serve g ev) =
      if login_submit (snd ev)
      then <[uuid (fst ev) := {| people.ID := uuid (fst ev);
                                 people.Name := http.FormValue (snd ev) "name" |}]> (users g)
      else users g) /\
  (forall r,
      login_submit r = true <->
      http.URL r = "/login" /\ http.Method r = "POST" /\
      (name_grammar (http.FormValue r "name") = true \/
       (forallb is_alpha (list_ascii_of_string (http.FormValue r "name")) = true /\
        36 <= length (list_ascii_of_string (http.FormValue r "name")) <= 70))).
Proof.
  intros Hfresh before after.
  destruct (generator_fresh_app (users g) g evs1 evs2 eq_refl Hfresh) as [_ H2].
  assert (Hsub : before ⊆ after).
  { subst before after. rewrite run_app. by apply run_grows. }
  split_and!.
  - done.
  - intros id p Hp. by apply (lookup_weaken _ _ _ _ Hp Hsub).
  - by apply run_size.
  - intros ev. apply serve_registry.
  - apply login_submit_spec.
Qed.

(** C6 as stated fails: a POST to /login with the 36-letter word, which is no
    valid name of the grammar, adds an entry to the registry. *)
Lemma thirty_six_letters_adds_entry :
  name_grammar thirty_six_letters = false /\
  let g := startup site_templates in
  let evs := [(env1, post_login thirty_six_letters)] in
  generator_fresh (users g) evs /\
  size (users g) = 0 /\
  size (registry (run (Running g) evs)) = 1.
Proof.
  split; [reflexivity |]. intros g evs. split_and!.
  - split; apply (bool_decide_unpack _); vm_compute; exact I.
  - reflexivity.
  - vm_compute. reflexivity.
Qed.

Lemma registry_only_grows_witness :
  let evs1 := [(env1, post_login "Jane Doe"); (env1, get "/time" [])] in
  let evs2 := [(env2, post_login "John")] in
  generator_fresh (users (startup site_templates)) (evs1 ++ evs2) /\
  registry (run (Running (startup site_templates)) evs1)
    ⊆ registry (run (Running (startup site_templates)) (evs1 ++ evs2)) /\
  size (registry (run (Running (startup site_templates)) (evs1 ++ evs2))) = 2.
Proof.
  intros evs1 evs2.
  assert (Hfresh : generator_fresh (users (startup site_templates)) (evs1 ++ evs2)).
  { split.
    - apply (bool_decide_unpack _). vm_compute. exact I.
    - apply (bool_decide_unpack _). vm_compute. exact I. }
  split; [exact Hfresh |].
  destruct (registry_only_grows (startup site_templates) evs1 evs2 Hfresh)
    as (Hsub & _ & Hsize & _).
  split; [exact Hsub |].
  etrans; [exact Hsize |]. vm_compute. reflexivity.
Defined.

Lemma serve_login_invalid g e r :
  http.URL r = "/login" ->
  http.Method r = "POST" ->
  regexp.MatchString name_pattern (http.FormValue r "name") = false ->
  "login.html" ∈ templates g ->
  serve g (e, r) =
  Responded (logging g [(InfoLevel, "Login handler called.")])
    (plain 400 "login.html" (Str "C'mon, I need a name.")).
Proof.
  intros HU HM HV Ht.
  unfold serve, router. cbn [fst snd]. rewrite HU. cbn [String.eqb Ascii.eqb Bool.eqb].
  unfold handleLogin. rewrite HM, HV. cbn [String.eqb Ascii.eqb Bool.eqb].
  run_handler. rewrite renderTemplate_found by done. done.
Qed.

(** ** The names the validation accepts *)

(** C2, as the code has it.  The handler accepts a name exactly when it is
    a name of the specification's grammar (a run of 2 to 35 letters,
    optionally followed by one space and a run of 0 to 35 letters) or an
    unbroken run of 36 to 70 letters; every other text is rejected. *)
Theorem accepted_names s :
  regexp.MatchString name_pattern s = true <->
  name_grammar s = true \/
  (forallb is_alpha (list_ascii_of_string s) = true /\
   36 <= length (list_ascii_of_string s) <= 70).
Proof.
  split.
  - apply accepted_cases.
  - intros [H | [Hall Hlen]].
    + by apply name_grammar_accepted.
    + by apply long_run_accepted.
Qed.

Lemma accepted_names_witness :
  name_grammar "Jane Doe" = true /\ regexp.MatchString name_pattern "Jane Doe" = true.
Proof.
  assert (H : name_grammar "Jane Doe" = true) by reflexivity.
  split; [exact H |].
  exact (proj2 (accepted_names "Jane Doe") (or_introl H)).
Defined.

(** C2 as stated fails: a single word of 36 letters is outside the grammar,
    and the handler's pattern matches it. *)
Lemma thirty_six_letters_accepted :
  String.length thirty_six_letters = 36 /\
  forallb is_alpha (list_ascii_of_string thirty_six_letters) = true /\
  name_grammar thirty_six_letters = false /\
  regexp.MatchString name_pattern thirty_six_letters = true /\
  ~ (regexp.MatchString name_pattern thirty_six_letters = true <->
     name_grammar thirty_six_letters = true).
Proof.
  split_and!; [reflexivity | reflexivity | reflexivity | reflexivity |].
  intros [H _]. specialize (H eq_refl). discriminate H.
Qed.

(** C3, as the code has it.  A POST to /login with a name outside the
    grammar that is not an unbroken run of 36 to 70 letters leaves the
    registry as it was and, the login view being there, answers 400 with the
    login view rendered on the validation message and no cookie set. *)
Theorem rejected_login_submit g e r name :
  http.URL r = "/login" ->
  http.Method r = "POST" ->
  http.FormValue r "name" = name ->
  name_grammar name = false ->
  ~ (forallb is_alpha (list_ascii_of_string name) = true /\
     36 <= length (list_ascii_of_string name) <= 70) ->
  let o := serve g (e, r) in
  registry_of o = users g /\
  ("login.html" ∈ templates g ->
   response_of o = Some (plain 400 "login.html" (Str "C'mon, I need a name.")) /\
   globals_of o = logging g [(InfoLevel, "Login handler called.")]).
Proof.
  intros HU HM HF Hg Hlong o.
  assert (HV : regexp.MatchString name_pattern name = false).
  { destruct (regexp.MatchString name_pattern name) eqn:HV; [| done].
    apply accepted_cases in HV as [HV | HV]; [congruence | done]. }
  split.
  - subst o. rewrite serve_registry. unfold login_submit. simpl.
    rewrite HF, HV, andb_false_r. done.
  - intros Ht. subst o. rewrite serve_login_invalid by (by rewrite ?HF). done.
Qed.

Lemma rejected_login_submit_witness :
  name_grammar "A1" = false /\
  "login.html" ∈ templates jane_logged_in /\
  let o := serve jane_logged_in (env2, post_login "A1") in
  registry_of o = users jane_logged_in /\
  response_of o = Some (plain 400 "login.html" (Str "C'mon, I need a name.")).
Proof.
  assert (Ht : "login.html" ∈ templates jane_logged_in).
  { apply (bool_decide_unpack _). vm_compute. exact I. }
  assert (Hlong : ~ (forallb is_alpha (list_ascii_of_string "A1") = true /\
                     36 <= length (list_ascii_of_string "A1") <= 70)).
  { intros [H _]. discriminate H. }
  split; [reflexivity |]. split; [exact Ht |].
  destruct (rejected_login_submit jane_logged_in env2 (post_login "A1") "A1"
              eq_refl eq_refl eq_refl eq_refl Hlong) as [Hreg Hresp].
  split; [exact Hreg | exact (proj1 (Hresp Ht))].
Defined.

(** C3 as stated fails: the 36-letter word is outside the grammar, and its
    submit is answered 302 with a session cookie and a new registry entry. *)
Lemma thirty_six_letters_logged_in :
  name_grammar thirty_six_letters = false /\
  let g := startup site_templates in
  let o := serve g (env1, post_login thirty_six_letters) in
  response_of o =
    Some {| http.StatusCode := 302;
            http.Headers := {| http.Location := Some "/";
                               http.SetCookie := [session_cookie "0e0cd4a2" 86400] |};
            http.Body := [] |} /\
  users g !! "0e0cd4a2" = None /\
  registry_of o !! "0e0cd4a2" =
    Some {| people.ID := "0e0cd4a2"; people.Name := thirty_six_letters |} /\
  registry_of o <> users g.
Proof.
  split; [reflexivity |]. intros g o.
  assert (Hnew : registry_of o !! "0e0cd4a2" =
                 Some {| people.ID := "0e0cd4a2"; people.Name := thirty_six_letters |})
    by (vm_compute; reflexivity).
  split_and!; [vm_compute; reflexivity | reflexivity | exact Hnew |].
  intros Heq. rewrite Heq in Hnew. discriminate Hnew.
Qed.

(** ** The default route *)

Lemma router_default e r :
  http.URL r = "/" \/ http.URL r = "/index.html" -> router e r = handleDefault e r.
Proof. unfold router. by intros [-> | ->]. Qed.

Lemma serve_default_greeting g e r :
  http.URL r = "/" \/ http.URL r = "/index.html" ->
  people.NameOf (users g) (cookie_id r) <> "" ->
  "greetings.html" ∈ templates g ->
  serve g (e, r) =
  Responded (logging g [(InfoLevel, "Default handler called.")])
    (plain 200 "greetings.html" (Str (people.NameOf (users g) (cookie_id r)))).
Proof.
  intros HU Hname Ht. apply String.eqb_neq in Hname.
  unfold serve. cbn [fst snd]. rewrite (router_default _ _ HU).
  unfold handleDefault, idFromUUIDCookie, cookie_id in *. run_handler.
  destruct (http.Request_Cookie r COOKIE_NAME) as [c | []]; cbn [fst users logging];
    rewrite Hname; cbn [negb]; rewrite renderTemplate_found by done; done.
Qed.

Lemma serve_default_redirect g e r :
  http.URL r = "/" \/ http.URL r = "/index.html" ->
  http.Method r = "GET" ->
  people.NameOf (users g) (cookie_id r) = "" ->
  serve g (e, r) =
  Responded (logging g [(InfoLevel, "Default handler called.")]) redirect_to_login.
Proof.
  intros HU HM Hname.
  unfold serve. cbn [fst snd]. rewrite (router_default _ _ HU).
  unfold handleDefault, idFromUUIDCookie, cookie_id in *. run_handler.
  destruct (http.Request_Cookie r COOKIE_NAME) as [c | []]; cbn [fst users logging];
    rewrite Hname; cbn [negb String.eqb]; run_writer; rewrite HM; done.
Qed.

Lemma NameOf_miss (u : gmap string people.Person) id :
  u !! id = None -> people.NameOf u id = "".
Proof. unfold people.NameOf. by intros ->. Qed.

(** C4.  A GET of "/" or "/index.html": if the identifier of the session
    cookie resolves to a non-empty name, the answer is 200 with the
    greetings view rendered on that name; otherwise -- in particular with no
    cookie (no Person being registered under the empty identifier), or with
    an identifier the registry does not have -- it is a 302 to "/login" in
    which no view is rendered.  The registry is not touched. *)
Theorem default_route g e r :
  http.URL r = "/" \/ http.URL r = "/index.html" ->
  http.Method r = "GET" ->
  let name := people.NameOf (users g) (cookie_id r) in
  let o := serve g (e, r) in
  (name <> "" -> "greetings.html" ∈ templates g ->
   response_of o = Some (plain 200 "greetings.html" (Str name))) /\
  (name = "" -> response_of o = Some redirect_to_login) /\
  (http.Request_Cookie r COOKIE_NAME = inr http.ErrNoCookie ->
   users g !! "" = None -> response_of o = Some redirect_to_login) /\
  (forall c, http.Request_Cookie r COOKIE_NAME = inl c ->
             users g !! http.Value c = None -> response_of o = Some redirect_to_login) /\
  http.views redirect_to_login = [] /\
  registry_of o = users g.
Proof.
  intros HU HM name o.
  assert (Hredirect : name = "" -> response_of o = Some redirect_to_login).
  { intros Hname. subst o. by rewrite serve_default_redirect. }
  split_and!.
  - intros Hname Ht. subst o. by rewrite serve_default_greeting.
  - done.
  - intros Hc Hnone. apply Hredirect. subst name. unfold cookie_id. rewrite Hc.
    by apply NameOf_miss.
  - intros c Hc Hnone. apply Hredirect. subst name. unfold cookie_id. rewrite Hc.
    by apply NameOf_miss.
  - done.
  - subst o. rewrite serve_registry. unfold login_submit. cbn [snd].
    by destruct HU as [-> | ->].
Qed.

Lemma default_route_witness :
  let r := get "/" [sent_cookie "0e0cd4a2"] in
  (http.URL r = "/" \/ http.URL r = "/index.html") /\
  http.Method r = "GET" /\
  "greetings.html" ∈ templates jane_logged_in /\
  response_of (serve jane_logged_in (env2, r)) =
    Some (plain 200 "greetings.html" (Str "Jane Doe")) /\
  response_of (serve jane_logged_in (env2, get "/" [])) = Some redirect_to_login.
Proof.
  intros r.
  assert (Ht : "greetings.html" ∈ templates jane_logged_in).
  { apply (bool_decide_unpack _). vm_compute. exact I. }
  assert (Hname : people.NameOf (users jane_logged_in) (cookie_id r) <> "").
  { vm_compute. intros H. discriminate H. }
  split; [left; reflexivity |]. split; [reflexivity |]. split; [exact Ht |].
  split.
  - exact (proj1 (default_route jane_logged_in env2 r (or_introl eq_refl) eq_refl)
             Hname Ht).
  - exact (proj1 (proj2 (proj2
             (default_route jane_logged_in env2 (get "/" []) (or_introl eq_refl) eq_refl)))
             eq_refl eq_refl).
Defined.

(** ** The time route *)

Lemma serve_time g e r :
  http.URL r = "/time" ->
  "time.html" ∈ templates g ->
  serve g (e, r) =
  Responded (logging g [(InfoLevel, "Time handler called.")])
    (plain 200 "time.html"
       (Params (time_payload (now e) (people.NameOf (users g) (cookie_id r))))).
Proof.
  intros HU Ht. unfold serve, router. cbn [fst snd]. rewrite HU.
  cbn [String.eqb Ascii.eqb Bool.eqb].
  unfold handleTime, idFromUUIDCookie, cookie_id. run_handler.
  destruct (http.Request_Cookie r COOKIE_NAME) as [c | []]; cbn [fst];
    rewrite renderTemplate_found by done; done.
Qed.

(** C8.  A GET of "/time", the time view being there, is answered 200 with
    the time view rendered on a payload that carries the formatted clock
    reading under "time" and, under "name", the name the registry has for
    the identifier of the session cookie: the empty string when there is no
    cookie (no Person being registered under the empty identifier) or when
    the registry does not have the identifier.  The registry is not
    touched. *)
Theorem time_route g e r :
  http.URL r = "/time" ->
  http.Method r = "GET" ->
  "time.html" ∈ templates g ->
  let name := people.NameOf (users g) (cookie_id r) in
  let o := serve g (e, r) in
  response_of o = Some (plain 200 "time.html" (Params (time_payload (now e) name))) /\
  time_payload (now e) name !! "time" = Some (time.Format (now e)) /\
  time_payload (now e) name !! "name" = Some name /\
  (http.Request_Cookie r COOKIE_NAME = inr http.ErrNoCookie ->
   users g !! "" = None -> name = "") /\
  (forall c, http.Request_Cookie r COOKIE_NAME = inl c ->
             users g !! http.Value c = None -> name = "") /\
  registry_of o = users g.
Proof.
  intros HU HM Ht name o. split_and!.
  - subst o. by rewrite serve_time.
  - done.
  - done.
  - intros Hc Hnone. subst name. unfold cookie_id. rewrite Hc. by apply NameOf_miss.
  - intros c Hc Hnone. subst name. unfold cookie_id. rewrite Hc. by apply NameOf_miss.
  - subst o. rewrite serve_registry. unfold login_submit. cbn [snd]. by rewrite HU.
Qed.

Lemma time_route_witness :
  "time.html" ∈ templates jane_logged_in /\
  response_of (serve jane_logged_in (env2, get "/time" [sent_cookie "no-such-id"])) =
    Some (plain 200 "time.html" (Params (time_payload evening ""))) /\
  time.Format evening = "5:59:36 PM".
Proof.
  assert (Ht : "time.html" ∈ templates jane_logged_in).
  { apply (bool_decide_unpack _). vm_compute. exact I. }
  split; [exact Ht |]. split; [| reflexivity].
  exact (proj1 (time_route jane_logged_in env2 (get "/time" [sent_cookie "no-such-id"])
                  eq_refl eq_refl Ht)).
Defined.

(** ** Logout *)

Lemma serve_logout g e r :
  http.URL r = "/logout" ->
  "logged-out.html" ∈ templates g ->
  serve g (e, r) =
  Responded (logging g [(InfoLevel, "Logout handler called.")]) logged_out_response.
Proof.
  intros HU Ht. unfold serve, router. cbn [fst snd]. rewrite HU.
  cbn [String.eqb Ascii.eqb Bool.eqb].
  unfold handleLogout. run_handler. rewrite renderTemplate_found by done. done.
Qed.

(** C7, as the code has it.  Requests to "/logout", whatever their cookies
    and however many in a row, the logged-out view being there: each one is
    answered, with status 200, the logged-out view and the cookie
    uuid=deleted whose MaxAge is -1, which goes out as the header
    Set-Cookie: uuid=deleted; Path=/; Max-Age=0; the process keeps running
    and the registry stays as it was. *)
Theorem logout_idempotent g evs :
  "logged-out.html" ∈ templates g ->
  Forall (fun ev => http.URL (snd ev) = "/logout") evs ->
  responses g evs = replicate (length evs) logged_out_response /\
  (exists g', run (Running g) evs = Running g' /\ users g' = users g) /\
  http.StatusCode logged_out_response = 200 /\
  http.views logged_out_response = [("logged-out.html", Nil)] /\
  http.MaxAge <$> http.SetCookie (http.Headers logged_out_response) = [(-1)%Z] /\
  cookie.lines (http.Headers logged_out_response) = ["uuid=deleted; Path=/; Max-Age=0"].
Proof.
  intros Ht Hall. split_and!; [| | done | done | done | done].
  - revert g Ht. induction Hall as [|[e r] evs HU _ IH]; intros g Ht; [done |].
    simpl in HU. simpl. rewrite (serve_logout _ _ _ HU Ht). rewrite IH by done. done.
  - revert g Ht. induction Hall as [|[e r] evs HU _ IH]; intros g Ht; [by exists g |].
    simpl in HU. rewrite run_cons. simpl. rewrite (serve_logout _ _ _ HU Ht).
    destruct (IH (logging g [(InfoLevel, "Logout handler called.")])) as (g' & Hrun & Hu);
      [done |].
    exists g'. done.
Qed.

(** C7 as stated fails: the Set-Cookie header of the answer to a GET of
    "/logout" reads Max-Age=0, not Max-Age=-1. *)
Lemma logout_header_max_age_zero :
  let o := serve jane_logged_in (env2, get "/logout" [sent_cookie "0e0cd4a2"]) in
  exists resp,
    response_of o = Some resp /\
    http.StatusCode resp = 200 /\
    cookie.lines (http.Headers resp) = ["uuid=deleted; Path=/; Max-Age=0"] /\
    cookie.lines (http.Headers resp) <> ["uuid=deleted; Path=/; Max-Age=-1"].
Proof.
  intros o. exists logged_out_response. split_and!.
  - vm_compute. reflexivity.
  - reflexivity.
  - reflexivity.
  - intros H. discriminate H.
Qed.

Lemma logout_idempotent_witness :
  let evs := [(env2, get "/logout" [sent_cookie "0e0cd4a2"]);
              (env2, get "/logout" []);
              (env2, post_logout)] in
  "logged-out.html" ∈ templates jane_logged_in /\
  responses jane_logged_in evs =
    [logged_out_response; logged_out_response; logged_out_response] /\
  registry (run (Running jane_logged_in) evs) = users jane_logged_in.
Proof.
  intros evs.
  assert (Ht : "logged-out.html" ∈ templates jane_logged_in).
  { apply (bool_decide_unpack _). vm_compute. exact I. }
  assert (Hall : Forall (fun ev => http.URL (snd ev) = "/logout") evs).
  { repeat constructor. }
  destruct (logout_idempotent jane_logged_in evs Ht Hall) as (Hresp & (g' & Hrun & Hu) & _).
  split; [exact Ht |]. split; [exact Hresp |].
  rewrite Hrun. exact Hu.
Defined.

(** ** Other methods on the login route *)

(** C10.  A request to "/login" whose method is neither GET nor POST gets
    the empty 200: the handler writes no body, sets no cookie and leaves the
    registry as it was. *)
Theorem login_other_method g e r :
  http.URL r = "/login" ->
  http.Method r <> "GET" ->
  http.Method r <> "POST" ->
  serve g (e, r) =
    Responded (logging g [(InfoLevel, "Login handler called.")])
      {| http.StatusCode := 200; http.Headers := http.emptyHeader; http.Body := [] |} /\
  registry_of (serve g (e, r)) = users g.
Proof.
  intros HU HG%String.eqb_neq HP%String.eqb_neq.
  assert (Hs : serve g (e, r) =
               Responded (logging g [(InfoLevel, "Login handler called.")])
                 {| http.StatusCode := 200; http.Headers := http.emptyHeader;
                    http.Body := [] |}).
  { unfold serve, router. cbn [fst snd]. rewrite HU.
    cbn [String.eqb Ascii.eqb Bool.eqb]. unfold handleLogin. rewrite HG, HP. done. }
  split; [exact Hs |]. rewrite Hs. done.
Qed.

Lemma login_other_method_witness :
  http.Method put_login <> "GET" /\
  http.Method put_login <> "POST" /\
  response_of (serve jane_logged_in (env2, put_login)) =
    Some {| http.StatusCode := 200; http.Headers := http.emptyHeader; http.Body := [] |} /\
  registry_of (serve jane_logged_in (env2, put_login)) = users jane_logged_in.
Proof.
  assert (HG : http.Method put_login <> "GET") by (intros H; discriminate H).
  assert (HP : http.Method put_login <> "POST") by (intros H; discriminate H).
  destruct (login_other_method jane_logged_in env2 put_login eq_refl HG HP) as [Hs Hreg].
  split; [exact HG |]. split; [exact HP |]. split; [| exact Hreg].
  rewrite Hs. reflexivity.
Defined.

(** ** A view that is not there *)

(** C5, what the code does.  When the template set has no template for the
    view, [renderTemplate] ends the process with exit status 1 right after
    the log entry: the response writer is as it was before the call, no
    status 500 and no error text are written. *)
Theorem missing_view_exits_before_500 templ d s :
  (templ +:+ ".html") ∉ templates (glob s) ->
  renderTemplate templ d s =
    Exit 1 {| glob := logging (glob s)
                        [(FatalLevel, "Error looking for template: " +:+ templ)];
              rw := rw s |} /\
  rw (final (renderTemplate templ d s)) = rw s.
Proof.
  intros Hmiss. rewrite renderTemplate_missing by done. done.
Qed.

Lemma missing_view_exits_before_500_witness :
  (("login" +:+ ".html") ∉ templates (startup site_templates_without_login)) /\
  serve (startup site_templates_without_login) (env1, get "/login" []) =
    Terminated 1
      (logging (startup site_templates_without_login)
         [(InfoLevel, "Login handler called.");
          (FatalLevel, "Error looking for template: login")]) /\
  response_of (serve (startup site_templates_without_login) (env1, get "/login" [])) = None.
Proof.
  assert (Hmiss : ("login" +:+ ".html") ∉ templates (startup site_templates_without_login)).
  { apply (bool_decide_unpack _). vm_compute. exact I. }
  pose proof (proj1 (missing_view_exits_before_500 "login" Nil
     {| glob := logging (startup site_templates_without_login) [(InfoLevel, "Login handler called.")];
        rw := http.newResponseWriter |} Hmiss)) as Hexit.
  assert (Hs : serve (startup site_templates_without_login) (env1, get "/login" []) =
               Terminated 1
                 (logging (startup site_templates_without_login)
                    [(InfoLevel, "Login handler called.");
                     (FatalLevel, "Error looking for template: login")])).
  { unfold serve, router. cbn [fst snd get http.URL String.eqb Ascii.eqb Bool.eqb].
    unfold handleLogin. cbn [get http.Method String.eqb Ascii.eqb Bool.eqb].
    cbv [bind info log_Info log_Debug emit ret glob rw]. rewrite Hexit. reflexivity. }
  split; [exact Hmiss |]. split; [exact Hs |]. rewrite Hs. reflexivity.
Defined.

(** ** The command line *)

Lemma Parse_port_flag p fs :
  Parse ["--port"; p] fs = Some {| port := p; V := V fs |}.
Proof. reflexivity. Qed.

(** [main] of [server.go] serves on the port given on the command line, on
    8080 when none is given, and with [-V] prints the version and exits
    with status 1 without serving. *)
Lemma main_serves_port listen p :
  listen (":" +:+ p) = true -> main listen ["--port"; p] = Serving (":" +:+ p).
Proof. intros H. unfold main. rewrite Parse_port_flag. cbn [port V]. by rewrite H. Qed.

Lemma main_default_port listen :
  listen ":8080" = true -> main listen [] = Serving ":8080".
Proof.
  intros H. unfold main. cbn [Parse port V].
  change (":" +:+ "8080") with ":8080". by rewrite H.
Qed.

Lemma main_version listen :
  main listen ["-V"] = Exited 1 ("Version number: v1.0.8 " +:+ newline).
Proof. reflexivity. Qed.

Lemma v101_main_version listen :
  v101.main listen ["-V"] = Exited 1 ("Version number: v1.0.1 " +:+ newline).
Proof. reflexivity. Qed.

(** C9, where the code departs from it.  Started with [--port p], [main] of
    [server.go] serves on [":p"]; [main] of the v1.0.1 server, which reads
    the flag variable before the command line is parsed, serves on ":8080"
    whatever [p] is. *)
Theorem v101_port_flag_ignored listen p :
  listen ":8080" = true ->
  listen (":" +:+ p) = true ->
  v101.main listen ["--port"; p] = Serving ":8080" /\
  main listen ["--port"; p] = Serving (":" +:+ p).
Proof.
  intros H8080 Hp. split; [| by apply main_serves_port].
  unfold v101.main. rewrite Parse_port_flag. cbn [port V].
  change (":" +:+ "8080") with ":8080". by rewrite H8080.
Qed.

Lemma v101_port_flag_ignored_witness :
  v101.main (fun _ => true) ["--port"; "9001"] = Serving ":8080" /\
  main (fun _ => true) ["--port"; "9001"] = Serving ":9001".
Proof.
  exact (v101_port_flag_ignored (fun _ => true) "9001" eq_refl eq_refl).
Defined.

(** * Further properties of the handlers *)

(** ** Case analysis on a request *)

Ltac split_atom :=
  match goal with
  | |- context [String.eqb (http.URL ?r) ?s] =>
      destruct (String.eqb (http.URL r) s) eqn:?
  | |- context [String.eqb (http.Method ?r) ?s] =>
      destruct (String.eqb (http.Method r) s) eqn:?
  | |- context [regexp.MatchString ?p ?s] =>
      destruct (regexp.MatchString p s) eqn:?
  | |- context [http.Request_Cookie ?r ?n] =>
      destruct (http.Request_Cookie r n) as [? | []] eqn:?
  | |- context [String.eqb (people.NameOf ?u ?i) ?s] =>
      destruct (String.eqb (people.NameOf u i) s) eqn:?
  | |- context [decide (?x ∈ ?X)] => destruct (decide (x ∈ X))
  end.

Ltac reduce_serve :=
  cbv [bind ret info log_Info log_Debug log_Fatal emit os_Exit get_users put_users
       setCookie on_writer glob rw fst snd negb];
  cbv [http.finishRequest http.Redirect http.SetCookie_ http.WriteHeader http.Write
       http.Error http.newResponseWriter http.emptyHeader http.header http.wroteHeader
       http.status http.sent http.body http.SetCookie http.Location];
  cbn [users logging with_users templates andb].

Ltac serve_cases :=
  unfold serve, router, handleDefault, handleLogin, handleLogout, handleNotFound,
    handleTime, idFromUUIDCookie, renderTemplate, ExecuteTemplate;
  reduce_serve; repeat (split_atom; reduce_serve).

(** Two different paths cannot both be the path of the request. *)
Ltac url_clash :=
  exfalso;
  repeat match goal with
         | H : String.eqb _ _ = true |- _ => apply String.eqb_eq in H
         end;
  congruence.

(** X1.  A request the router dispatches is answered with one of the statuses
    200, 302, 400 and 404; no handler ever answers 500. *)
Theorem serve_status_codes g ev resp :
  dispatched (snd ev) ->
  response_of (serve g ev) = Some resp ->
  http.StatusCode resp = 200 \/ http.StatusCode resp = 302 \/
  http.StatusCode resp = 400 \/ http.StatusCode resp = 404.
Proof.
  intros _. destruct ev as [e r]. serve_cases;
    cbn [response_of]; intros [= <-]; cbn; auto; done.
Qed.

Lemma serve_status_codes_witness :
  dispatched (get "/nowhere" []) /\
  response_of (serve (startup site_templates) (env1, get "/nowhere" [])) =
    Some (plain 404 "404.html" Nil) /\
  http.StatusCode (plain 404 "404.html" Nil) = 404.
Proof.
  assert (Hd : dispatched (get "/nowhere" [])) by reflexivity.
  assert (H : response_of (serve (startup site_templates) (env1, get "/nowhere" [])) =
              Some (plain 404 "404.html" Nil)) by (vm_compute; reflexivity).
  split; [exact Hd |]. split; [exact H |].
  destruct (serve_status_codes _ (env1, get "/nowhere" []) _ Hd H)
    as [Hc | [Hc | [Hc | Hc]]];
    [discriminate Hc | discriminate Hc | discriminate Hc | exact Hc].
Defined.

(** X2.  The cookies of a response: an accepted login submit sets the one
    cookie uuid=<generated identifier> with MaxAge 86400, a request to
    "/logout" the one cookie uuid=deleted with MaxAge -1, both on Path "/";
    no other response sets a cookie. *)
Theorem serve_cookies g e r resp :
  response_of (serve g (e, r)) = Some resp ->
  http.SetCookie (http.Headers resp) =
  if login_submit r then [session_cookie (uuid e) 86400]
  else if String.eqb (http.URL r) "/logout" then [session_cookie "deleted" (-1)]
  else [].
Proof.
  unfold login_submit. serve_cases;
    cbn [response_of]; intros [= <-]; cbn; try done; url_clash.
Qed.

Lemma serve_cookies_witness :
  response_of (serve jane_logged_in (env2, get "/logout" [])) = Some logged_out_response /\
  http.SetCookie (http.Headers logged_out_response) = [session_cookie "deleted" (-1)].
Proof.
  assert (H : response_of (serve jane_logged_in (env2, get "/logout" [])) =
              Some logged_out_response) by (vm_compute; reflexivity).
  split; [exact H |]. exact (serve_cookies _ _ _ _ H).
Defined.

(** X3.  The response to a request the router dispatches has a Location
    header exactly when its status is 302; the target is "/" after an
    accepted login submit and "/login" otherwise. *)
Theorem serve_location g e r resp :
  dispatched r ->
  response_of (serve g (e, r)) = Some resp ->
  (http.StatusCode resp = 302 <-> is_Some (http.Location (http.Headers resp))) /\
  (http.StatusCode resp = 302 ->
   http.Location (http.Headers resp) =
   Some (if login_submit r then "/" else "/login")).
Proof.
  intros _. unfold login_submit. serve_cases;
    cbn [response_of]; intros [= <-]; cbn; try url_clash;
    (split; [split; [intros ? | intros [? ?]] | intros ?]);
    first [ done | discriminate | by eexists ].
Qed.

Lemma serve_location_witness :
  dispatched (get "/" []) /\
  response_of (serve jane_logged_in (env2, get "/" [])) = Some redirect_to_login /\
  http.Location (http.Headers redirect_to_login) = Some "/login".
Proof.
  assert (Hd : dispatched (get "/" [])) by reflexivity.
  assert (H : response_of (serve jane_logged_in (env2, get "/" [])) =
              Some redirect_to_login) by (vm_compute; reflexivity).
  split; [exact Hd |]. split; [exact H |].
  exact (proj2 (serve_location _ _ _ _ Hd H) eq_refl).
Defined.

(** ** When the process ends *)

(** X4.  When a request the router dispatches ends the process, the exit
    status is 1 and the globals at the exit are those before the request
    plus two log entries, the handler's at Info level and the Fatal one of
    [renderTemplate] naming a view; the registry and the template set are as
    before. *)
Theorem serve_terminated g ev code g' :
  dispatched (snd ev) ->
  serve g ev = Terminated code g' ->
  code = 1%Z /\
  users g' = users g /\
  templates g' = templates g /\
  exists msg view,
    g' = logging (logging g [(InfoLevel, msg)])
           [(FatalLevel, "Error looking for template: " +:+ view)].
Proof.
  intros _. destruct ev as [e r]. serve_cases; intros [= <- <-];
    (split_and!; [reflexivity | reflexivity | reflexivity |]);
    eexists _, _; reflexivity.
Qed.

Lemma serve_terminated_witness :
  dispatched (get "/time" []) /\
  serve (startup site_templates_without_time) (env1, get "/time" []) =
    Terminated 1
      (logging (logging (startup site_templates_without_time)
                  [(InfoLevel, "Time handler called.")])
         [(FatalLevel, "Error looking for template: time")]) /\
  (1 = 1)%Z.
Proof.
  assert (Hd : dispatched (get "/time" [])) by reflexivity.
  assert (H : serve (startup site_templates_without_time) (env1, get "/time" []) =
              Terminated 1
                (logging (logging (startup site_templates_without_time)
                            [(InfoLevel, "Time handler called.")])
                   [(FatalLevel, "Error looking for template: time")]))
    by (vm_compute; reflexivity).
  split; [exact Hd |]. split; [exact H |].
  exact (proj1 (serve_terminated _ (env1, get "/time" []) _ _ Hd H)).
Defined.

(** X5.  A request the router dispatches, when it is answered, leaves the
    template set as it was and adds one entry to the log, at Info level. *)
Theorem serve_responded g ev g' resp :
  dispatched (snd ev) ->
  serve g ev = Responded g' resp ->
  templates g' = templates g /\
  exists msg, logged g' = logged g ++ [(InfoLevel, msg)].
Proof.
  intros _. destruct ev as [e r]. serve_cases; intros [= <- <-]; cbn; eauto.
Qed.

Lemma serve_responded_witness :
  dispatched (get "/login" []) /\
  serve (startup site_templates) (env1, get "/login" []) =
    Responded (logging (startup site_templates) [(InfoLevel, "Login handler called.")])
      (plain 200 "login.html" Nil) /\
  templates (logging (startup site_templates) [(InfoLevel, "Login handler called.")]) =
    site_templates.
Proof.
  assert (Hd : dispatched (get "/login" [])) by reflexivity.
  assert (H : serve (startup site_templates) (env1, get "/login" []) =
              Responded
                (logging (startup site_templates) [(InfoLevel, "Login handler called.")])
                (plain 200 "login.html" Nil)) by (vm_compute; reflexivity).
  split; [exact Hd |]. split; [exact H |].
  exact (proj1 (serve_responded _ (env1, get "/login" []) _ _ Hd H)).
Defined.

(** ** The routes the claims leave out *)

(** X7.  A GET of "/login", the login view being there, is answered 200 with
    the login view rendered on no data, whatever cookies and form fields
    the request carries -- a name in them is not looked at; no cookie is
    set and the registry is not touched. *)
Theorem login_form g e r :
  http.URL r = "/login" ->
  http.Method r = "GET" ->
  "login.html" ∈ templates g ->
  serve g (e, r) =
    Responded (logging g [(InfoLevel, "Login handler called.")])
      (plain 200 "login.html" Nil) /\
  registry_of (serve g (e, r)) = users g.
Proof.
  intros HU HM Ht.
  assert (Hs : serve g (e, r) =
               Responded (logging g [(InfoLevel, "Login handler called.")])
                 (plain 200 "login.html" Nil)).
  { unfold serve, router. cbn [fst snd]. rewrite HU.
    cbn [String.eqb Ascii.eqb Bool.eqb]. unfold handleLogin. rewrite HM.
    cbn [String.eqb Ascii.eqb Bool.eqb]. run_handler.
    rewrite renderTemplate_found by done. done. }
  split; [exact Hs |]. by rewrite Hs.
Qed.

Lemma login_form_witness :
  let r := {| http.Method := "GET"; http.URL := "/login"; http.Cookies := [];
              http.Form := [("name", "Jane Doe")] |} in
  "login.html" ∈ templates (startup site_templates) /\
  response_of (serve (startup site_templates) (env1, r)) =
    Some (plain 200 "login.html" Nil) /\
  registry_of (serve (startup site_templates) (env1, r)) = ∅.
Proof.
  intros r.
  assert (Ht : "login.html" ∈ templates (startup site_templates)).
  { apply (bool_decide_unpack _). vm_compute. exact I. }
  destruct (login_form (startup site_templates) env1 r eq_refl eq_refl Ht) as [Hs Hreg].
  split; [exact Ht |]. split; [| exact Hreg]. rewrite Hs. reflexivity.
Defined.

(** X8.  A request the router dispatches to a path that is not one of the
    five registered ones, whatever its method, is answered 404 with the 404
    view (the view being there); no cookie is set and the registry is not
    touched. *)
Theorem not_found g e r :
  dispatched r ->
  http.URL r ∉ routes ->
  "404.html" ∈ templates g ->
  serve g (e, r) =
    Responded (logging g [(InfoLevel, "Not found handler called.")])
      (plain 404 "404.html" Nil) /\
  registry_of (serve g (e, r)) = users g.
Proof.
  intros _ HU Ht.
  assert (Hne : forall p, p ∈ routes -> String.eqb (http.URL r) p = false).
  { intros p Hp. apply String.eqb_neq. intros Heq. apply HU. by rewrite Heq. }
  assert (Hs : serve g (e, r) =
               Responded (logging g [(InfoLevel, "Not found handler called.")])
                 (plain 404 "404.html" Nil)).
  { unfold serve, router. cbn [fst snd].
    rewrite (Hne "/"), (Hne "/index.html"), (Hne "/login"), (Hne "/logout"),
      (Hne "/time") by (apply list_elem_of_In; simpl; tauto).
    unfold handleNotFound. run_handler. rewrite renderTemplate_found by done. done. }
  split; [exact Hs |]. by rewrite Hs.
Qed.

Lemma not_found_witness :
  dispatched (get "/time/is/a/valuable/resource" []) /\
  (http.URL (get "/time/is/a/valuable/resource" []) ∉ routes) /\
  response_of (serve (startup site_templates) (env1, get "/time/is/a/valuable/resource" []))
    = Some (plain 404 "404.html" Nil).
Proof.
  assert (Hd : dispatched (get "/time/is/a/valuable/resource" [])) by reflexivity.
  assert (HU : http.URL (get "/time/is/a/valuable/resource" []) ∉ routes).
  { apply (bool_decide_unpack _). vm_compute. exact I. }
  assert (Ht : "404.html" ∈ templates (startup site_templates)).
  { apply (bool_decide_unpack _). vm_compute. exact I. }
  split; [exact Hd |]. split; [exact HU |].
  rewrite (proj1 (not_found (startup site_templates) env1 _ Hd HU Ht)). reflexivity.
Defined.

(** X9.  The default route serves every method: a request whose session
    resolves to a name gets the greeting whatever its method, and one whose
    session does not resolve and whose method is not GET gets the 302 to
    "/login" with an empty body. *)
Theorem default_route_any_method g e r :
  http.URL r = "/" \/ http.URL r = "/index.html" ->
  let name := people.NameOf (users g) (cookie_id r) in
  (name <> "" -> "greetings.html" ∈ templates g ->
   response_of (serve g (e, r)) = Some (plain 200 "greetings.html" (Str name))) /\
  (name = "" -> http.Method r <> "GET" ->
   response_of (serve g (e, r)) =
     Some {| http.StatusCode := 302;
             http.Headers := {| http.Location := Some "/login"; http.SetCookie := [] |};
             http.Body := [] |}).
Proof.
  intros HU name. split.
  - intros Hname Ht. by rewrite serve_default_greeting.
  - intros Hname HM%String.eqb_neq. subst name.
    unfold serve. cbn [fst snd]. rewrite (router_default _ _ HU).
    unfold handleDefault, idFromUUIDCookie, cookie_id in *. run_handler.
    destruct (http.Request_Cookie r COOKIE_NAME) as [c | []]; cbn [fst users logging];
      rewrite Hname; cbn [negb String.eqb]; run_writer; rewrite HM; done.
Qed.

Lemma default_route_any_method_witness :
  let r := {| http.Method := "POST"; http.URL := "/index.html";
              http.Cookies := [sent_cookie "0e0cd4a2"]; http.Form := [] |} in
  "greetings.html" ∈ templates jane_logged_in /\
  response_of (serve jane_logged_in (env2, r)) =
    Some (plain 200 "greetings.html" (Str "Jane Doe")).
Proof.
  intros r.
  assert (Ht : "greetings.html" ∈ templates jane_logged_in).
  { apply (bool_decide_unpack _). vm_compute. exact I. }
  assert (Hname : people.NameOf (users jane_logged_in) (cookie_id r) <> "").
  { vm_compute. intros H. discriminate H. }
  split; [exact Ht |].
  exact (proj1 (default_route_any_method jane_logged_in env2 r (or_intror eq_refl))
           Hname Ht).
Defined.

(** ** What a handler reads of the request and of its surroundings *)

(** X10.  The response to a request the router dispatches, and the registry
    after it, depend on the request only through its path, its method, the
    value of its session cookie (the empty string standing for no cookie)
    and its form field "name": two requests that agree on these get the
    same response and leave the same registry, whatever else they carry. *)
Theorem serve_reads_only g e r1 r2 :
  dispatched r1 ->
  http.URL r1 = http.URL r2 ->
  http.Method r1 = http.Method r2 ->
  cookie_id r1 = cookie_id r2 ->
  http.FormValue r1 "name" = http.FormValue r2 "name" ->
  response_of (serve g (e, r1)) = response_of (serve g (e, r2)) /\
  registry_of (serve g (e, r1)) = registry_of (serve g (e, r2)).
Proof.
  intros _ HU HM Hc HF.
  assert (Hs : serve g (e, r1) = serve g (e, r2)); [| by rewrite Hs].
  unfold serve, router, handleDefault, handleLogin, handleLogout, handleNotFound,
    handleTime, idFromUUIDCookie, http.Redirect.
  cbn [fst snd]. rewrite <- HU, <- HM, <- HF. unfold cookie_id in Hc.
  destruct (http.Request_Cookie r1 COOKIE_NAME) as [c1 | []],
           (http.Request_Cookie r2 COOKIE_NAME) as [c2 | []];
    run_handler; rewrite <- ?Hc; try rewrite Hc; reflexivity.
Qed.

Lemma serve_reads_only_witness :
  let r1 := get "/" [{| http.Name := "uuid"; http.Value := ""; http.Path := "";
                         http.MaxAge := 0 |}] in
  let r2 := {| http.Method := "GET"; http.URL := "/"; http.Cookies := [sent_cookie_other];
               http.Form := [("q", "x")] |} in
  dispatched r1 /\
  cookie_id r1 = cookie_id r2 /\
  response_of (serve jane_logged_in (env2, r1)) =
  response_of (serve jane_logged_in (env2, r2)).
Proof.
  intros r1 r2. split; [reflexivity |]. split; [reflexivity |].
  exact (proj1 (serve_reads_only jane_logged_in env2 r1 r2
                  eq_refl eq_refl eq_refl eq_refl eq_refl)).
Defined.

(** X11.  For the response to a request the router dispatches, and for the
    registry after it, the clock matters on the time route only and the
    identifier generator for accepted login submits only: apart from these,
    the response and the registry are the same under any two
    surroundings. *)
Theorem serve_env g e1 e2 r :
  dispatched r ->
  (http.URL r = "/time" -> now e1 = now e2) ->
  (login_submit r = true -> uuid e1 = uuid e2) ->
  response_of (serve g (e1, r)) = response_of (serve g (e2, r)) /\
  registry_of (serve g (e1, r)) = registry_of (serve g (e2, r)).
Proof.
  unfold login_submit. intros _ Hclock Hgen.
  assert (Hs : serve g (e1, r) = serve g (e2, r)); [| by rewrite Hs].
  assert (Hclock' : String.eqb (http.URL r) "/time" = true -> now e1 = now e2)
    by (intros H%String.eqb_eq; auto).
  clear Hclock. revert Hclock' Hgen. serve_cases; intros Hclock Hgen;
    rewrite <- ?(Hgen eq_refl), <- ?(Hclock eq_refl); try reflexivity; url_clash.
Qed.

Lemma serve_env_witness :
  dispatched (get "/" [sent_cookie "0e0cd4a2"]) /\
  response_of (serve jane_logged_in (env1, get "/" [sent_cookie "0e0cd4a2"])) =
  response_of (serve jane_logged_in (env2, get "/" [sent_cookie "0e0cd4a2"])).
Proof.
  assert (Hd : dispatched (get "/" [sent_cookie "0e0cd4a2"])) by reflexivity.
  split; [exact Hd |].
  apply (serve_env jane_logged_in env1 env2 _ Hd).
  - intros H. discriminate H.
  - intros H. discriminate H.
Defined.

(** X12.  [idFromUUIDCookie] returns the value of the first cookie named
    "uuid", whatever cookies come before or after it, and the empty string
    with [ErrNoCookie] when no cookie has that name; it has no effect. *)
Theorem idFromUUIDCookie_first r s :
  (Forall (fun c => http.Name c <> COOKIE_NAME) (http.Cookies r) ->
   idFromUUIDCookie r s = Ret ("", Some http.ErrNoCookie) s) /\
  (forall pre c post,
      http.Cookies r = pre ++ c :: post ->
      Forall (fun c' => http.Name c' <> COOKIE_NAME) pre ->
      http.Name c = COOKIE_NAME ->
      idFromUUIDCookie r s = Ret (http.Value c, None) s).
Proof.
  unfold idFromUUIDCookie, http.Request_Cookie, bind, log_Debug, ret. split.
  - intros Hall. induction Hall as [|c cs Hc _ IH]; simpl; [done |].
    apply String.eqb_neq in Hc. by rewrite Hc.
  - intros pre c post -> Hpre Hc. induction Hpre as [|c' pre Hc' _ IH]; simpl.
    + apply String.eqb_eq in Hc. by rewrite Hc.
    + apply String.eqb_neq in Hc'. by rewrite Hc'.
Qed.

Lemma idFromUUIDCookie_first_witness :
  let r := get "/" [sent_cookie_other; sent_cookie "first"; sent_cookie "second"] in
  let s := {| glob := startup site_templates; rw := http.newResponseWriter |} in
  idFromUUIDCookie r s = Ret ("first", None) s.
Proof.
  intros r s.
  apply (proj2 (idFromUUIDCookie_first r s) [sent_cookie_other] (sent_cookie "first")
           [sent_cookie "second"] eq_refl).
  - repeat constructor. intros H. discriminate H.
  - reflexivity.
Defined.

(** ** From the login to the pages *)

Lemma accepted_nonempty s : regexp.MatchString name_pattern s = true -> s <> "".
Proof.
  intros (w1 & sp & w2 & Hs & _ & Hlen & _)%MatchString_name_pattern ->.
  simpl in Hs. destruct w1; simpl in *; [lia | done].
Qed.




Lemma run_logouts g evs :
  "logged-out.html" ∈ templates g ->
  Forall (fun ev => http.URL (snd ev) = "/logout") evs ->
  exists g', run (Running g) evs = Running g' /\ users g' = users g /\
             templates g' = templates g.
Proof.
  intros Ht Hall. revert g Ht.
  induction Hall as [|[e r] evs HU _ IH]; intros g Ht; [by exists g |].
  simpl in HU. rewrite run_cons. simpl. rewrite (serve_logout _ _ _ HU Ht).
  destruct (IH (logging g [(InfoLevel, "Logout handler called.")])) as (g' & ? & ? & ?);
    [done |].
  exists g'. done.
Qed.

(** X14.  Logging out does not end the session on the server: after an
    accepted login submit followed by any number of requests to "/logout",
    a request that still carries the identifier is greeted with the name as
    before. *)
Theorem session_survives_logout g e r evs e' r' :
  login_submit r = true ->
  "logged-out.html" ∈ templates g ->
  "greetings.html" ∈ templates g ->
  Forall (fun ev => http.URL (snd ev) = "/logout") evs ->
  http.URL r' = "/" \/ http.URL r' = "/index.html" ->
  cookie_id r' = uuid e ->
  exists g2,
    run (Running g) ((e, r) :: evs) = Running g2 /\
    response_of (serve g2 (e', r')) =
      Some (plain 200 "greetings.html" (Str (http.FormValue r "name"))).
Proof.
  intros Hsub Hout Hgreet Hall HU Hid.
  rewrite run_cons. simpl. rewrite (serve_login_submit _ _ _ Hsub).
  set (g1 := with_users _ _).
  destruct (run_logouts g1 evs) as (g2 & Hrun & Hu & Ht); [done | done |].
  exists g2. split; [done |].
  assert (Hname : people.NameOf (users g2) (cookie_id r') = http.FormValue r "name").
  { rewrite Hu, Hid. subst g1. simpl. unfold people.NameOf, people.Add. simpl.
    by rewrite lookup_insert_eq. }
  assert (Hne : http.FormValue r "name" <> "").
  { apply accepted_nonempty. unfold login_submit in Hsub.
    by apply andb_true_iff in Hsub as [_ ?]. }
  rewrite serve_default_greeting; rewrite ?Hname, ?Ht; done.
Qed.

Lemma session_survives_logout_witness :
  let evs := [(env2, get "/logout" [sent_cookie "0e0cd4a2"]); (env2, post_logout)] in
  login_submit (post_login "Jane Doe") = true /\
  exists g2,
    run (Running (startup site_templates)) ((env1, post_login "Jane Doe") :: evs)
      = Running g2 /\
    response_of (serve g2 (env2, get "/" [sent_cookie "0e0cd4a2"])) =
      Some (plain 200 "greetings.html" (Str "Jane Doe")).
Proof.
  intros evs.
  assert (Hout : "logged-out.html" ∈ templates (startup site_templates)).
  { apply (bool_decide_unpack _). vm_compute. exact I. }
  assert (Hgreet : "greetings.html" ∈ templates (startup site_templates)).
  { apply (bool_decide_unpack _). vm_compute. exact I. }
  assert (Hall : Forall (fun ev => http.URL (snd ev) = "/logout") evs).
  { repeat constructor. }
  split; [reflexivity |].
  exact (session_survives_logout (startup site_templates) env1 (post_login "Jane Doe")
           evs env2 (get "/" [sent_cookie "0e0cd4a2"])
           eq_refl Hout Hgreet Hall (or_introl eq_refl) eq_refl).
Defined.

(** X15.  Every Person the server ever registers went through the
    validation: starting from the empty registry, after any sequence of
    requests each entry is filed under its own identifier and has a name the
    pattern accepts; so the registry has a non-empty name for exactly the
    identifiers it holds. *)
Theorem registry_validated ts evs :
  let u := registry (run (Running (startup ts)) evs) in
  map_Forall validated u /\
  (forall id, people.NameOf u id <> "" <-> is_Some (u !! id)).
Proof.
  assert (Hinv : forall l, map_Forall validated (registry l) ->
                           map_Forall validated (registry (run l evs))).
  { induction evs as [|ev evs IH]; intros l Hl; [done |].
    destruct l as [g | code g]; [| by rewrite run_Halted].
    rewrite run_cons. apply IH. rewrite registry_step, serve_registry.
    destruct (login_submit (snd ev)) eqn:Hsub; [| done].
    unfold people.Add. simpl. apply map_Forall_insert_2; [| done].
    split; [done |]. simpl. unfold login_submit in Hsub.
    by apply andb_true_iff in Hsub as [_ ?]. }
  intros u. assert (Hu : map_Forall validated u).
  { apply Hinv. simpl. unfold people.NewUsers. apply map_Forall_empty. }
  split; [done |]. intros id. unfold people.NameOf.
  destruct (u !! id) as [p |] eqn:Hp.
  - split; [eauto |]. intros _. apply accepted_nonempty. by apply (Hu id p).
  - split; [done | by intros [? ?]].
Qed.

(** ** The v1.0.1 server *)

(** X16.  The handlers of the v1.0.1 server drop the renderer's error: a
    request its router dispatches is always answered and never ends the
    process, with status 200 on "/time" and 404 on every other path, and
    with an empty body when the template is not in the set; the globals are
    left as they were. *)
Theorem v101_serve_always_answers g t1 t2 r :
  dispatched r ->
  exists resp,
    v101.serve g t1 t2 r = Responded g resp /\
    http.StatusCode resp = (if String.eqb (http.URL r) "/time" then 200 else 404) /\
    http.Headers resp = http.emptyHeader /\
    http.Body resp =
      if String.eqb (http.URL r) "/time"
      then (if decide ("time" ∈ templates g)
            then [http.Rendered "time"
                    (Params (<["localTime" := v101.localFormat t1]>
                               (<["UTCTime" := v101.UTCFormat t2]> ∅)))]
            else [])
      else (if decide ("http404" ∈ templates g)
            then [http.Rendered "http404" Nil]
            else []).
Proof.
  intros _.
  unfold v101.serve, v101.router, v101.timeHandler, v101.notFound, ExecuteTemplate.
  destruct (String.eqb (http.URL r) "/time"); reduce_serve;
    case_decide; reduce_serve; eexists; done.
Qed.

Lemma v101_serve_always_answers_witness :
  dispatched (get "/timer" []) /\
  v101.serve (startup site_templates) evening evening (get "/timer" []) =
    Responded (startup site_templates)
      {| http.StatusCode := 404; http.Headers := http.emptyHeader; http.Body := [] |}.
Proof.
  assert (Hd : dispatched (get "/timer" [])) by reflexivity.
  split; [exact Hd |].
  destruct (v101_serve_always_answers (startup site_templates) evening evening
              (get "/timer" []) Hd) as (resp & Hs & Hstatus & Hhead & Hbody).
  rewrite Hs. destruct resp as [st hd bd]. cbn in Hstatus, Hhead, Hbody.
  rewrite Hstatus, Hhead. f_equal. f_equal. rewrite Hbody. vm_compute. reflexivity.
Defined.

(** X17.  Whatever the command line, the v1.0.1 server serves on ":8080" if
    it serves at all. *)
Theorem v101_main_serves_8080_only listen args addr :
  v101.main listen args = Serving addr -> addr = ":8080".
Proof.
  unfold v101.main. destruct (Parse args _) as [parsed |]; [| done].
  destruct (V parsed); [done |].
  change (":" +:+ port {| port := "8080"; V := false |}) with ":8080".
  destruct (listen ":8080"); [| done]. by intros [= <-].
Qed.

Lemma v101_main_serves_8080_only_witness :
  v101.main (fun _ => true) ["-port=80"; "--port"; "443"] = Serving ":8080".
Proof.
  assert (H : exists addr,
             v101.main (fun _ => true) ["-port=80"; "--port"; "443"] = Serving addr).
  { eexists. reflexivity. }
  destruct H as [addr H]. rewrite H.
  rewrite (v101_main_serves_8080_only _ _ _ H). reflexivity.
Defined.

(** ** The clock on the page *)

Lemma digit_code n : nat_of_ascii (time.digit n) = 48 + n mod 10.
Proof.
  unfold time.digit. apply nat_ascii_embedding.
  pose proof (Nat.mod_upper_bound n 10). lia.
Qed.

Lemma digit_inj a b : time.digit a = time.digit b -> a mod 10 = b mod 10.
Proof.
  intros H. apply (f_equal nat_of_ascii) in H. rewrite !digit_code in H. lia.
Qed.

Lemma digit_not_colon n : time.digit n <> ":"%char.
Proof.
  intros H. apply (f_equal nat_of_ascii) in H. rewrite digit_code in H.
  pose proof (Nat.mod_upper_bound n 10).
  change (nat_of_ascii ":") with 58 in H. lia.
Qed.

Lemma hour12_range h : 1 <= time.hour12 h <= 12.
Proof.
  unfold time.hour12. pose proof (Nat.mod_upper_bound h 12).
  destruct (Nat.eqb_spec (h mod 12) 0); lia.
Qed.

Lemma mod_12_day h : h < 24 -> h mod 12 = if (h <? 12)%nat then h else h - 12.
Proof.
  intros Hh. destruct (Nat.ltb_spec h 12); [by apply Nat.mod_small |].
  replace h with ((h - 12) + 1 * 12) at 1 by lia.
  rewrite Nat.Div0.mod_add. apply Nat.mod_small. lia.
Qed.

Lemma two_digits_value n m :
  n < 100 -> m < 100 ->
  (n / 10) mod 10 = (m / 10) mod 10 -> n mod 10 = m mod 10 -> n = m.
Proof.
  intros Hn Hm Hd Hu.
  rewrite !Nat.mod_small in Hd by (apply Nat.Div0.div_lt_upper_bound; lia).
  rewrite (Nat.div_mod_eq n 10), (Nat.div_mod_eq m 10). lia.
Qed.

Lemma hour12_day h1 h2 :
  h1 < 24 -> h2 < 24 ->
  time.hour12 h1 = time.hour12 h2 ->
  (h1 mod 24 <? 12)%nat = (h2 mod 24 <? 12)%nat -> h1 = h2.
Proof.
  intros Hh1 Hh2. unfold time.hour12.
  rewrite !(Nat.mod_small _ 24), !mod_12_day by lia.
  destruct (Nat.ltb_spec h1 12), (Nat.ltb_spec h2 12); try discriminate;
    repeat match goal with |- context [Nat.eqb ?a ?b] => destruct (Nat.eqb_spec a b) end;
    lia.
Qed.

(** X18.  On the layout of the time page a clock reading can be read back:
    two readings within the day that are shown alike are the same
    reading. *)
Theorem Format_injective t1 t2 :
  time.hour t1 < 24 -> time.minute t1 < 60 -> time.second t1 < 60 ->
  time.hour t2 < 24 -> time.minute t2 < 60 -> time.second t2 < 60 ->
  time.Format t1 = time.Format t2 ->
  t1 = t2.
Proof.
  destruct t1 as [h1 m1 s1], t2 as [h2 m2 s2]. cbn [time.hour time.minute time.second].
  intros Hh1 Hm1 Hs1 Hh2 Hm2 Hs2. unfold time.Format.
  cbn [time.hour time.minute time.second].
  pose proof (hour12_range h1) as R1. pose proof (hour12_range h2) as R2.
  assert (Hhalf : forall (b1 b2 : bool),
             (if b1 then "AM" else "PM") = (if b2 then "AM" else "PM") -> b1 = b2)
    by (intros [] []; done).
  unfold time.two_digits.
  destruct (Nat.ltb_spec (time.hour12 h1) 10), (Nat.ltb_spec (time.hour12 h2) 10);
    cbv [String.append]; intros Heq; injection Heq; clear Heq; intros;
    try match goal with
        | H : (if _ then "AM" else "PM") = _ |- _ => apply Hhalf in H
        end.
  - repeat match goal with H : time.digit _ = time.digit _ |- _ =>
             apply digit_inj in H end.
    f_equal; [apply hour12_day; [lia | lia | | done] | |];
      first [ apply two_digits_value; (lia || done)
            | rewrite <- (Nat.mod_small (time.hour12 h1) 10),
                      <- (Nat.mod_small (time.hour12 h2) 10); (lia || done) ].
  - exfalso. match goal with H : ":"%char = time.digit _ |- _ =>
               symmetry in H; by apply digit_not_colon in H end.
  - exfalso. match goal with H : time.digit _ = ":"%char |- _ =>
               by apply digit_not_colon in H end.
  - repeat match goal with H : time.digit _ = time.digit _ |- _ =>
             apply digit_inj in H end.
    f_equal; [apply hour12_day; [lia | lia | | done] | |];
      apply two_digits_value; (lia || done).
Qed.

Lemma Format_injective_witness :
  let t := {| time.hour := 17; time.minute := 59; time.second := 36 |} in
  time.Format evening = time.Format t /\ evening = t.
Proof.
  intros t.
  assert (H : time.Format evening = time.Format t) by reflexivity.
  split; [exact H |].
  apply (Format_injective evening t); simpl; [lia | lia | lia | lia | lia | lia | exact H].
Defined.

(** ** The port *)

Lemma Parse_keeps_port args :
  Forall (fun a => names_port a = false) args ->
  forall fs fs', Parse args fs = Some fs' -> port fs' = port fs.
Proof.
  induction 1 as [|a args Ha _ IH]; intros fs fs'; cbn [Parse].
  - by intros [= <-].
  - unfold names_port in Ha.
    destruct ((String.length a <? 2)%nat || String.eqb a "--"); [by intros [= <-] |].
    destruct (flag_name a) as [n |]; [| by intros [= <-]].
    destruct (bad_syntax n); [done |].
    destruct (String.eqb (fst (split_value n)) "V").
    + destruct (snd (split_value n)) as [v |].
      * destruct (ParseBool v); [| done]. intros H. by rewrite (IH _ _ H).
      * intros H. by rewrite (IH _ _ H).
    + rewrite Ha. done.
Qed.

(** X19.  [main] of [server.go] leaves the port at its default unless a port
    flag is given: on a command line none of whose arguments is written as
    the port flag it serves on ":8080" if it serves at all. *)
Theorem main_default_port_kept listen args addr :
  Forall (fun a => names_port a = false) args ->
  main listen args = Serving addr ->
  addr = ":8080".
Proof.
  intros Hargs. unfold main.
  destruct (Parse args _) as [parsed |] eqn:HP; [| done].
  apply (Parse_keeps_port _ Hargs) in HP. cbn [port] in HP. rewrite HP.
  destruct (V parsed); [done |].
  change (":" +:+ "8080") with ":8080".
  destruct (listen ":8080"); [| done]. by intros [= <-].
Qed.

Lemma main_default_port_kept_witness :
  Forall (fun a => names_port a = false) ["-V=false"; "rest"] /\
  main (fun _ => true) ["-V=false"; "rest"] = Serving ":8080".
Proof.
  assert (Hargs : Forall (fun a => names_port a = false) ["-V=false"; "rest"]).
  { repeat constructor. }
  assert (H : exists addr, main (fun _ => true) ["-V=false"; "rest"] = Serving addr).
  { eexists. reflexivity. }
  destruct H as [addr H]. split; [exact Hargs |].
  rewrite H, (main_default_port_kept _ _ _ Hargs H). reflexivity.
Defined.
